(** * HOPE_5_CVD_RC: the SMART-2 risk calculation of [HOPE_5_CVD_RC.py]

    A shallow embedding of [calculate_smart2_risk] and of the tier
    selection of [main], followed by the properties of the risk model.

    Numbers.  Python floats are read as the real numbers they denote:
    arithmetic is exact, and non-finite floats (inf, nan) are outside the
    model.  One behaviour of binary64 changes control flow and is kept:
    [**] on floats raises [OverflowError] when the power leaves the
    binary64 range, and so does [float()] on an integer that large. *)

From Stdlib Require Import Reals Lra Lia ZArith String List Bool.
From Bignums Require Import BigZ.
Import ListNotations.

Local Open Scope R_scope.

(** ** Python values, exceptions, results *)

(** What a key of [st.session_state] can hold: the initialiser and the
    widgets of [main] store bools, ints, floats and strs; [PyNone] stands
    for a value that is no number at all. *)
Inductive pyval : Type :=
| PyNone
| PyBool (b : bool)
| PyInt (z : Z)
| PyFloat (x : R)
| PyStr (s : string).

Inductive exn : Type :=
| AttributeError
| TypeError
| ValueError
| OverflowError.

(** A Python evaluation either yields a value or raises. *)
Inductive result (A : Type) : Type :=
| Ok (a : A)
| Raise (e : exn).

Arguments Ok {A} a.
Arguments Raise {A} e.

Definition bind {A B : Type} (m : result A) (k : A -> result B) : result B :=
  match m with
  | Ok a => k a
  | Raise e => Raise e
  end.

Notation "x <- m ;; k" := (bind m (fun x => k))
  (at level 61, m at next level, right associativity).

(** ** The session state *)

(** The ten keys read by [calculate_smart2_risk]; [None] is an absent key. *)
Record session_state : Type := mkSession {
  age : option pyval;
  sex : option pyval;
  diabetes : option pyval;
  smoker : option pyval;
  egfr : option pyval;
  ldl : option pyval;
  sbp : option pyval;
  cad : option pyval;
  stroke : option pyval;
  pad : option pyval
}.

(** [st.session_state.key]: attribute access raises on an absent key. *)
Definition getattr (field : option pyval) : result pyval :=
  match field with
  | Some v => Ok v
  | None => Raise AttributeError
  end.

(** The state written at start-up (lines 5-17). *)
Definition initial_state : session_state :=
  mkSession (Some (PyInt 65)) (Some (PyStr "Male"))
            (Some (PyBool false)) (Some (PyBool false))
            (Some (PyInt 90)) (Some (PyFloat 3.5)) (Some (PyInt 140))
            (Some (PyBool false)) (Some (PyBool false)) (Some (PyBool false)).

(** ** Builtins used by the calculation *)

(** Magnitudes from this bound on round to infinity in binary64:
    halfway between the largest finite float and 2^1024. *)
Definition float_overflow : Z := (2 ^ 1024 - 2 ^ 970)%Z.

(** int -> float, as done by [float()] and by mixed arithmetic. *)
Definition int_to_float (z : Z) : result R :=
  if (Z.abs z <? float_overflow)%Z then Ok (IZR z) else Raise OverflowError.

Definition bool_to_int (b : bool) : Z := if b then 1%Z else 0%Z.

(** The reading of [float()] on strs used by the closed examples, which
    convert no string: it accepts none. *)
Definition no_numeral_str : string -> option R := fun _ => None.

Section Calculation.

(** [float(s)] for a str [s]: the numeral grammar belongs to the
    interpreter, not to this repository, so the reading of strings is left
    open.  [None] is a string that [float()] rejects with [ValueError]. *)
Variable float_of_str : string -> option R.

(** [float(v)] *)
Definition py_float (v : pyval) : result R :=
  match v with
  | PyNone => Raise TypeError
  | PyBool b => Ok (IZR (bool_to_int b))
  | PyInt z => int_to_float z
  | PyFloat x => Ok x
  | PyStr s =>
      match float_of_str s with
      | Some x => Ok x
      | None => Raise ValueError
      end
  end.

(** The accumulator of [sum]: an int until a float is met. *)
Inductive number : Type :=
| NInt (z : Z)
| NFloat (x : R).

(** [acc + x] as [sum] performs it: ints and bools add as ints, an int
    meeting a float is converted first, [None] and strs have no [+] with a
    number. *)
Definition py_add (acc : number) (x : pyval) : result number :=
  match acc, x with
  | NInt a, PyBool b => Ok (NInt (a + bool_to_int b))
  | NInt a, PyInt b => Ok (NInt (a + b))
  | NInt a, PyFloat y => a' <- int_to_float a ;; Ok (NFloat (a' + y))
  | NFloat a, PyBool b => Ok (NFloat (a + IZR (bool_to_int b)))
  | NFloat a, PyInt b => b' <- int_to_float b ;; Ok (NFloat (a + b'))
  | NFloat a, PyFloat y => Ok (NFloat (a + y))
  | _, PyNone => Raise TypeError
  | _, PyStr _ => Raise TypeError
  end.

(** [sum(xs)]: left to right from the int 0. *)
Fixpoint py_sum_from (acc : number) (xs : list pyval) : result number :=
  match xs with
  | [] => Ok acc
  | x :: rest => acc' <- py_add acc x ;; py_sum_from acc' rest
  end.

Definition py_sum (xs : list pyval) : result number := py_sum_from (NInt 0) xs.

(** The real a number denotes; comparisons between ints and floats are
    exact. *)
Definition number_of (n : number) : R :=
  match n with
  | NInt z => IZR z
  | NFloat x => x
  end.

(** [v == "..."] against a str literal. *)
Definition py_eq_str (v : pyval) (lit : string) : bool :=
  match v with
  | PyStr s => String.eqb s lit
  | _ => false
  end.

(** Truth value of [v] in [... if v else ...]. *)
Definition truthy (v : pyval) : bool :=
  match v with
  | PyNone => false
  | PyBool b => b
  | PyInt z => negb (z =? 0)%Z
  | PyFloat x => if Req_dec_T x 0 then false else true
  | PyStr s => negb (String.eqb s "")
  end.

(** [b ** x] for a float base [b > 0]: the power, or [OverflowError]
    when it leaves the binary64 range.  Underflow is no error. *)
Definition py_pow (b x : R) : result R :=
  if Rlt_dec (Rpower b x) (IZR float_overflow)
  then Ok (Rpower b x)
  else Raise OverflowError.

(** [round(x, 1)]: the nearest multiple of 1/10, ties to the even one. *)
Definition round_half_even (y : R) : Z :=
  let f := Zfloor y in
  let d := y - IZR f in
  if Rlt_dec d (1 / 2) then f
  else if Rlt_dec (1 / 2) d then (f + 1)%Z
  else if Z.even f then f else (f + 1)%Z.

Definition py_round1 (x : R) : R := IZR (round_half_even (x * 10)) / 10.

(** [min(a, b)] and [max(a, b)]: the first argument is kept unless the
    second is strictly smaller (larger). *)
Definition py_min (a b : R) : R := if Rlt_dec b a then b else a.
Definition py_max (a b : R) : R := if Rlt_dec a b then b else a.

(** [sum] over the values of a dict of numbers, in insertion order. *)
Definition values {K V : Type} (d : list (K * V)) : list V := map snd d.

Definition sum_numbers (xs : list R) : R := fold_left Rplus xs 0.

(** ** [calculate_smart2_risk] *)

(** Lines 30-41: the [coefficients] dict, given the converted inputs. *)
Definition coefficients (age egfr ldl sbp : R) (vasc_count : number)
    (sex diabetes smoker : pyval) : list (string * R) :=
  [ ("intercept", -8.1937);
    ("age", 0.0635 * (age - 60));
    ("female", if py_eq_str sex "Female" then -0.3372 else 0);
    ("diabetes", if truthy diabetes then 0.5034 else 0);
    ("smoker", if truthy smoker then 0.7862 else 0);
    ("egfr<30", if Rlt_dec egfr 30 then 0.9235 else 0);
    ("egfr30-60",
       if Rle_dec 30 egfr then (if Rlt_dec egfr 60 then 0.5539 else 0) else 0);
    ("polyvascular", if Rle_dec 2 (number_of vasc_count) then 0.5434 else 0);
    ("ldl", 0.2436 * (ldl - 2.5));
    ("sbp", 0.0083 * (sbp - 120)) ]%string.

(** Lines 23-44: the linear predictor [lp]. *)
Definition linear_predictor (st : session_state) : result R :=
  v_age <- getattr (age st) ;; age <- py_float v_age ;;
  v_egfr <- getattr (egfr st) ;; egfr <- py_float v_egfr ;;
  v_ldl <- getattr (ldl st) ;; ldl <- py_float v_ldl ;;
  v_sbp <- getattr (sbp st) ;; sbp <- py_float v_sbp ;;
  v_cad <- getattr (cad st) ;;
  v_stroke <- getattr (stroke st) ;;
  v_pad <- getattr (pad st) ;;
  vasc_count <- py_sum [v_cad; v_stroke; v_pad] ;;
  v_sex <- getattr (sex st) ;;
  v_diabetes <- getattr (diabetes st) ;;
  v_smoker <- getattr (smoker st) ;;
  Ok (sum_numbers
        (values (coefficients age egfr ldl sbp vasc_count
                              v_sex v_diabetes v_smoker))).

(** Line 45: [risk_percent], with the literal 2.71828 as base of both
    powers; [-2.71828**lp * 10] is [(-(2.71828**lp)) * 10]. *)
Definition risk_percent (lp : R) : result R :=
  inner <- py_pow 2.71828 lp ;;
  outer <- py_pow 2.71828 (- inner * 10) ;;
  Ok (100 * (1 - outer)).

(** Line 46: round, then clamp. *)
Definition clamp_rounded (risk_percent : R) : R :=
  py_max 1.0 (py_min 99.0 (py_round1 risk_percent)).

(** The body of the [try]. *)
Definition try_block (st : session_state) : result R :=
  lp <- linear_predictor st ;;
  rp <- risk_percent lp ;;
  Ok (clamp_rounded rp).

(** The function: a bare [except] turns every exception into [return
    None].  The result is what the caller receives: a returned value
    ([Some] number or [None]) or, in principle, a raised exception. *)
Definition calculate_smart2_risk (st : session_state) : result (option R) :=
  match try_block st with
  | Ok risk => Ok (Some risk)
  | Raise _ => Ok None
  end.

(** ** The tier selection of [main] (lines 95-106 and 128-129) *)

Inductive tier : Type := Moderate | High | VeryHigh.

Definition tier_of (risk : R) : tier :=
  if Rle_dec 30 risk then VeryHigh
  else if Rle_dec 20 risk then High
  else Moderate.

(** What the first tab shows. *)
Inductive tab1 : Type :=
| RiskEstimate (risk : R) (t : tier)
| CompleteAllFields.

Definition main_tab1 (st : session_state) : result tab1 :=
  risk <- calculate_smart2_risk st ;;
  match risk with
  | Some r => Ok (RiskEstimate r (tier_of r))
  | None => Ok CompleteAllFields
  end.

(** ** Well-formed profiles *)

Inductive sex_t : Type := Male | Female.

(** A profile as the widgets of [main] deliver it: every key present,
    numbers in the numeric fields, one of the two radio labels for the
    sex, a bool per checkbox. *)
Record PatientProfile : Type := mkProfile {
  p_age : R;
  p_sex : sex_t;
  p_diabetes : bool;
  p_smoker : bool;
  p_egfr : R;
  p_ldl : R;
  p_sbp : R;
  p_cad : bool;
  p_stroke : bool;
  p_pad : bool
}.

Definition sex_label (s : sex_t) : string :=
  match s with
  | Male => "Male"
  | Female => "Female"
  end.

Definition session_of (p : PatientProfile) : session_state :=
  mkSession (Some (PyFloat (p_age p))) (Some (PyStr (sex_label (p_sex p))))
            (Some (PyBool (p_diabetes p))) (Some (PyBool (p_smoker p)))
            (Some (PyFloat (p_egfr p))) (Some (PyFloat (p_ldl p)))
            (Some (PyFloat (p_sbp p)))
            (Some (PyBool (p_cad p))) (Some (PyBool (p_stroke p)))
            (Some (PyBool (p_pad p))).

(** The ranges the widgets of [main] allow (lines 72-82). *)
Definition in_widget_range (p : PatientProfile) : Prop :=
  30 <= p_age p <= 90 /\ 15 <= p_egfr p <= 120 /\
  1.0 <= p_ldl p <= 10.0 /\ 90 <= p_sbp p <= 220.

(** ** The model as the specification words it *)

Definition vascular_territory_count (p : PatientProfile) : nat :=
  Nat.b2n (p_cad p) + Nat.b2n (p_stroke p) + Nat.b2n (p_pad p).

Definition is_female (s : sex_t) : bool :=
  match s with
  | Female => true
  | Male => false
  end.

(** The ten terms of the linear predictor. *)
Definition term_intercept : R := -8.1937.
Definition term_age (p : PatientProfile) : R := 0.0635 * (p_age p - 60).
Definition term_female (p : PatientProfile) : R :=
  if is_female (p_sex p) then -0.3372 else 0.
Definition term_diabetes (p : PatientProfile) : R :=
  if p_diabetes p then 0.5034 else 0.
Definition term_smoker (p : PatientProfile) : R :=
  if p_smoker p then 0.7862 else 0.
Definition term_egfr_lt_30 (p : PatientProfile) : R :=
  if Rlt_dec (p_egfr p) 30 then 0.9235 else 0.
Definition term_egfr_30_60 (p : PatientProfile) : R :=
  if Rle_dec 30 (p_egfr p)
  then (if Rlt_dec (p_egfr p) 60 then 0.5539 else 0)
  else 0.
Definition term_polyvascular (p : PatientProfile) : R :=
  if (2 <=? vascular_territory_count p)%nat then 0.5434 else 0.
Definition term_ldl (p : PatientProfile) : R := 0.2436 * (p_ldl p - 2.5).
Definition term_sbp (p : PatientProfile) : R := 0.0083 * (p_sbp p - 120).

Definition spec_lp (p : PatientProfile) : R :=
  term_intercept + term_age p + term_female p + term_diabetes p
  + term_smoker p + term_egfr_lt_30 p + term_egfr_30_60 p
  + term_polyvascular p + term_ldl p + term_sbp p.


(** The transform with the literal base of the code, as a real function. *)
Definition literal_risk_percent_raw (lp : R) : R :=
  100 * (1 - Rpower 2.71828 (- Rpower 2.71828 lp * 10)).

(** Clamp to [1, 99], then round: the order of the specification. *)
Definition spec_clamp (x : R) : R := Rmax 1 (Rmin 99 x).
Definition spec_clamp_then_round (raw : R) : R := py_round1 (spec_clamp raw).

(** Largest linear predictor used below for which [2.71828 ** lp] is
    certainly in range. *)
Definition lp_in_range (lp : R) : Prop := lp <= 709.

(** [risk_percent] as a function of the session: lines 23-45. *)
Definition raw_risk (st : session_state) : result R :=
  lp <- linear_predictor st ;; risk_percent lp.

(** [2.71828 ** lp] leaves the binary64 range. *)
Definition power_overflows (lp : R) : Prop :=
  IZR float_overflow <= Rpower 2.71828 lp.

(** What makes lines 23-41 fail, before any power is taken: a key is
    absent, [float()] rejects one of the four numeric fields, or the three
    vascular flags cannot be summed. *)
Definition key_absent (st : session_state) : Prop :=
  age st = None \/ sex st = None \/ diabetes st = None \/ smoker st = None \/
  egfr st = None \/ ldl st = None \/ sbp st = None \/
  cad st = None \/ stroke st = None \/ pad st = None.

Definition float_rejects (field : option pyval) : Prop :=
  exists v e, field = Some v /\ py_float v = Raise e.

Definition flags_not_summable (st : session_state) : Prop :=
  exists c s p e,
    cad st = Some c /\ stroke st = Some s /\ pad st = Some p /\
    py_sum [c; s; p] = Raise e.

Definition input_rejected (st : session_state) : Prop :=
  key_absent st \/
  float_rejects (age st) \/ float_rejects (egfr st) \/
  float_rejects (ldl st) \/ float_rejects (sbp st) \/
  flags_not_summable st.

(** [p'] is [p] with risk factors moved in the direction the model counts
    as worse (any number of them): older, higher LDL or blood pressure,
    lower eGFR, conditions and vascular territories added; same sex. *)
Definition bool_le (a b : bool) : Prop := a = true -> b = true.

Definition riskier (p p' : PatientProfile) : Prop :=
  p_age p <= p_age p' /\ p_sex p = p_sex p' /\
  bool_le (p_diabetes p) (p_diabetes p') /\
  bool_le (p_smoker p) (p_smoker p') /\
  p_egfr p' <= p_egfr p /\
  p_ldl p <= p_ldl p' /\ p_sbp p <= p_sbp p' /\
  bool_le (p_cad p) (p_cad p') /\ bool_le (p_stroke p) (p_stroke p') /\
  bool_le (p_pad p) (p_pad p').

(** ** Profiles used in the examples *)

(** Reference patient: every variable term of the predictor vanishes. *)
Definition scenario_A : PatientProfile :=
  mkProfile 60 Male false false 90 2.5 120 false false false.

(** Every slider at its upper end, every checkbox ticked. *)
Definition extreme_high (s : sex_t) : PatientProfile :=
  mkProfile 90 s true true 120 10.0 220 true true true.

(** The reference patient ten years older and diabetic. *)
Definition older_diabetic : PatientProfile :=
  mkProfile 70 Male true false 90 2.5 120 false false false.

(** Well-formed profiles far outside the widget ranges. *)
Definition age_100000 : PatientProfile :=
  mkProfile 100000 Male false false 90 2.5 120 false false false.

Definition sbp_1000000 : PatientProfile :=
  mkProfile 60 Male false false 90 2.5 1000000 false false false.

(** A state whose [age] key is absent. *)
Definition age_missing : session_state :=
  mkSession None (Some (PyStr "Male"))
            (Some (PyBool false)) (Some (PyBool false))
            (Some (PyInt 90)) (Some (PyFloat 3.5)) (Some (PyInt 140))
            (Some (PyBool false)) (Some (PyBool false)) (Some (PyBool false)).


(** ** Start-up and the rest of [main] *)

(** Lines 5-17: the defaults are written only when the key [age] is
    absent; [update] then sets all ten keys. *)
Definition initialise (st : session_state) : session_state :=
  match age st with
  | None => initial_state
  | Some _ => st
  end.

(** The widgets of Streamlit, as far as [main] relies on them: each call
    either returns a value or raises inside the library.  A slider and a
    number input take label, minimum, maximum and current value; the radio
    takes label, options and the index of the current option; a checkbox
    takes label and current value. *)
Record streamlit : Type := mkStreamlit {
  slider : string -> Z -> Z -> pyval -> result Z;
  radio : string -> list string -> nat -> result string;
  checkbox : string -> pyval -> result bool;
  number_input_float : string -> R -> R -> pyval -> result R;
  number_input_int : string -> Z -> Z -> pyval -> result Z
}.

(** What a widget returns lies within what it was given: sliders and
    number inputs within their bounds, the radio among its options. *)
Definition widgets_in_bounds (ui : streamlit) : Prop :=
  (forall l lo hi v z, slider ui l lo hi v = Ok z -> (lo <= z <= hi)%Z)
  /\ (forall l opts i s, radio ui l opts i = Ok s -> In s opts)
  /\ (forall l lo hi v x, number_input_float ui l lo hi v = Ok x -> lo <= x <= hi)
  /\ (forall l lo hi v z, number_input_int ui l lo hi v = Ok z -> (lo <= z <= hi)%Z).

(** Lines 68-88: every key is read as the current value of its widget and
    overwritten with what the widget returns.  Each line touches its own
    key only, so the new state is assembled at the end. *)
Definition sidebar (ui : streamlit) (st : session_state) : result session_state :=
  v_age <- getattr (age st) ;;
  new_age <- slider ui "Age (years)" 30 90 v_age ;;
  v_sex <- getattr (sex st) ;;
  new_sex <- radio ui "Sex" ["Male"; "Female"]%string
                   (if py_eq_str v_sex "Male" then 0 else 1) ;;
  v_diabetes <- getattr (diabetes st) ;;
  new_diabetes <- checkbox ui "Diabetes" v_diabetes ;;
  v_smoker <- getattr (smoker st) ;;
  new_smoker <- checkbox ui "Current smoker" v_smoker ;;
  v_egfr <- getattr (egfr st) ;;
  new_egfr <- slider ui "eGFR (mL/min)" 15 120 v_egfr ;;
  v_ldl <- getattr (ldl st) ;;
  new_ldl <- number_input_float ui "LDL-C (mmol/L)" 1.0 10.0 v_ldl ;;
  v_sbp <- getattr (sbp st) ;;
  new_sbp <- number_input_int ui "SBP (mmHg)" 90 220 v_sbp ;;
  v_cad <- getattr (cad st) ;;
  new_cad <- checkbox ui "Coronary artery disease" v_cad ;;
  v_stroke <- getattr (stroke st) ;;
  new_stroke <- checkbox ui "Prior stroke/TIA" v_stroke ;;
  v_pad <- getattr (pad st) ;;
  new_pad <- checkbox ui "Peripheral artery disease" v_pad ;;
  Ok (mkSession (Some (PyInt new_age)) (Some (PyStr new_sex))
                (Some (PyBool new_diabetes)) (Some (PyBool new_smoker))
                (Some (PyInt new_egfr)) (Some (PyFloat new_ldl))
                (Some (PyInt new_sbp))
                (Some (PyBool new_cad)) (Some (PyBool new_stroke))
                (Some (PyBool new_pad))).

(** [v < 60] and [n > 0] against an int literal: numbers compare by value,
    [None] and strs do not compare with an int. *)
Definition py_lt_int (v : pyval) (k : Z) : result bool :=
  match v with
  | PyBool b => Ok (bool_to_int b <? k)%Z
  | PyInt z => Ok (z <? k)%Z
  | PyFloat x => Ok (if Rlt_dec x (IZR k) then true else false)
  | PyNone => Raise TypeError
  | PyStr _ => Raise TypeError
  end.

Definition number_gt_int (n : number) (k : Z) : bool :=
  if Rlt_dec (IZR k) (number_of n) then true else false.

(** The entries of the "Risk Factors" expander (lines 109-127), before
    they are formatted and joined: each carries the value it prints. *)
Inductive factor : Type :=
| FactorAge (v : pyval)
| FactorSex (v : pyval)
| FactorLDL (v : pyval)
| FactorSBP (v : pyval)
| FactorDiabetes
| FactorSmoker
| FactorEgfrCKD (v : pyval)
| FactorVascular (n : number).

Definition risk_factors (st : session_state) : result (list factor) :=
  v_age <- getattr (age st) ;;
  v_sex <- getattr (sex st) ;;
  v_ldl <- getattr (ldl st) ;;
  v_sbp <- getattr (sbp st) ;;
  let factors := [FactorAge v_age; FactorSex v_sex; FactorLDL v_ldl;
                  FactorSBP v_sbp] in
  v_diabetes <- getattr (diabetes st) ;;
  let factors :=
    if truthy v_diabetes then factors ++ [FactorDiabetes] else factors in
  v_smoker <- getattr (smoker st) ;;
  let factors :=
    if truthy v_smoker then factors ++ [FactorSmoker] else factors in
  v_egfr <- getattr (egfr st) ;;
  low <- py_lt_int v_egfr 60 ;;
  let factors :=
    if low then factors ++ [FactorEgfrCKD v_egfr] else factors in
  v_cad <- getattr (cad st) ;;
  v_stroke <- getattr (stroke st) ;;
  v_pad <- getattr (pad st) ;;
  vasc_count <- py_sum [v_cad; v_stroke; v_pad] ;;
  let factors :=
    if number_gt_int vasc_count 0
    then factors ++ [FactorVascular vasc_count] else factors in
  Ok factors.

(** The second tab (lines 131-160): [risk] is always a local by then. *)
Inductive guidance : Type :=
| VeryHighRiskManagement
| HighRiskManagement
| ModerateRiskManagement
| CompleteRiskAssessment.

Definition main_tab2 (risk : option R) : guidance :=
  match risk with
  | Some r =>
      if Rle_dec 30 r then VeryHighRiskManagement
      else if Rle_dec 20 r then HighRiskManagement
      else ModerateRiskManagement
  | None => CompleteRiskAssessment
  end.

(** What one run of [main] puts on the page. *)
Record page : Type := mkPage {
  shown_tab1 : tab1;
  shown_factors : option (list factor);
  shown_tab2 : guidance
}.

Definition main (ui : streamlit) (st : session_state) : result page :=
  st' <- sidebar ui st ;;
  risk <- calculate_smart2_risk st' ;;
  t1 <- main_tab1 st' ;;
  factors <- match risk with
             | Some _ => fs <- risk_factors st' ;; Ok (Some fs)
             | None => Ok None
             end ;;
  Ok (mkPage t1 factors (main_tab2 risk)).

(** The profile a state of the sidebar stands for. *)
Definition sex_of_label (s : string) : sex_t :=
  if String.eqb s "Female" then Female else Male.

(** Widgets that hand back their current value when it is of the right
    type and within bounds, and raise otherwise: a user who touches
    nothing. *)
Definition untouched : streamlit :=
  mkStreamlit
    (fun _ lo hi v =>
       match v with
       | PyInt z => if ((lo <=? z) && (z <=? hi))%Z then Ok z else Raise ValueError
       | _ => Raise TypeError
       end)
    (fun _ opts i =>
       match nth_error opts i with
       | Some s => Ok s
       | None => Raise ValueError
       end)
    (fun _ v => Ok (truthy v))
    (fun _ lo hi v =>
       match v with
       | PyFloat x =>
           if Rle_dec lo x then (if Rle_dec x hi then Ok x else Raise ValueError)
           else Raise ValueError
       | _ => Raise TypeError
       end)
    (fun _ lo hi v =>
       match v with
       | PyInt z => if ((lo <=? z) && (z <=? hi))%Z then Ok z else Raise ValueError
       | _ => Raise TypeError
       end).

(** A state in which [age] is set but [sex] is not. *)
Definition sex_missing : session_state :=
  mkSession (Some (PyInt 65)) None
            (Some (PyBool false)) (Some (PyBool false))
            (Some (PyInt 90)) (Some (PyFloat 3.5)) (Some (PyInt 140))
            (Some (PyBool false)) (Some (PyBool false)) (Some (PyBool false)).

(** * Properties *)

(** ** Rounding and clamping *)

Lemma round_half_even_near (y : R) :
  IZR (round_half_even y) - 1 / 2 <= y <= IZR (round_half_even y) + 1 / 2.
Proof.
  unfold round_half_even.
  pose proof (Zfloor_bound y) as Hb.
  destruct (Rlt_dec (y - IZR (Zfloor y)) (1 / 2)) as [Hlo | Hlo].
  - lra.
  - destruct (Rlt_dec (1 / 2) (y - IZR (Zfloor y))) as [Hhi | Hhi].
    + rewrite plus_IZR. lra.
    + destruct (Z.even (Zfloor y)); [| rewrite plus_IZR]; lra.
Qed.

Lemma round_half_even_IZR (k : Z) : round_half_even (IZR k) = k.
Proof.
  unfold round_half_even. rewrite ZfloorZ.
  destruct (Rlt_dec (IZR k - IZR k) (1 / 2)) as [_ | Hn]; [reflexivity | lra].
Qed.

Lemma round_half_even_le (x y : R) :
  x <= y -> (round_half_even x <= round_half_even y)%Z.
Proof.
  intros Hxy.
  destruct (Z_le_gt_dec (round_half_even x) (round_half_even y)) as [Hle | Hgt];
    [exact Hle | exfalso].
  assert (Hstep : IZR (round_half_even y) + 1 <= IZR (round_half_even x)).
  { rewrite <- plus_IZR. apply IZR_le. lia. }
  pose proof (round_half_even_near x) as Hx.
  pose proof (round_half_even_near y) as Hy.
  assert (Heq : x = y) by lra.
  subst y. lia.
Qed.

Lemma py_round1_le (x y : R) : x <= y -> py_round1 x <= py_round1 y.
Proof.
  intros Hxy. unfold py_round1.
  assert (H : IZR (round_half_even (x * 10)) <= IZR (round_half_even (y * 10))).
  { apply IZR_le, round_half_even_le. lra. }
  lra.
Qed.

Lemma py_round1_tenths (k : Z) : py_round1 (IZR k / 10) = IZR k / 10.
Proof.
  unfold py_round1.
  replace (IZR k / 10 * 10) with (IZR k) by lra.
  now rewrite round_half_even_IZR.
Qed.

Lemma py_round1_1 : py_round1 1 = 1.
Proof.
  replace 1 with (IZR 10 / 10) at 1 by lra.
  rewrite py_round1_tenths. lra.
Qed.

Lemma py_round1_99 : py_round1 99 = 99.
Proof.
  replace 99 with (IZR 990 / 10) at 1 by lra.
  rewrite py_round1_tenths. lra.
Qed.

Lemma clamp_rounded_bounds (x : R) : 1 <= clamp_rounded x <= 99.
Proof.
  unfold clamp_rounded, py_max, py_min.
  destruct (Rlt_dec (py_round1 x) 99.0);
    destruct (Rlt_dec 1.0 _); lra.
Qed.

Lemma clamp_rounded_tenths (x : R) : exists k : Z, clamp_rounded x = IZR k / 10.
Proof.
  unfold clamp_rounded, py_max, py_min.
  destruct (Rlt_dec (py_round1 x) 99.0).
  - destruct (Rlt_dec 1.0 (py_round1 x)).
    + exists (round_half_even (x * 10)). reflexivity.
    + exists 10%Z. lra.
  - destruct (Rlt_dec 1.0 99.0).
    + exists 990%Z. lra.
    + exists 10%Z. lra.
Qed.

Lemma clamp_rounded_le (x y : R) : x <= y -> clamp_rounded x <= clamp_rounded y.
Proof.
  intros Hxy. pose proof (py_round1_le x y Hxy) as Hr.
  unfold clamp_rounded, py_max, py_min.
  destruct (Rlt_dec (py_round1 x) 99.0); destruct (Rlt_dec (py_round1 y) 99.0);
    repeat match goal with
           | |- context [Rlt_dec ?a ?b] => destruct (Rlt_dec a b)
           end; lra.
Qed.

Lemma clamp_rounded_spec_order (x : R) :
  clamp_rounded x = spec_clamp_then_round x.
Proof.
  unfold spec_clamp_then_round, spec_clamp.
  pose proof py_round1_1 as H1. pose proof py_round1_99 as H99.
  unfold Rmin. destruct (Rle_dec 99 x) as [Hhi | Hhi].
  - unfold Rmax. destruct (Rle_dec 1 99) as [_ | Hn]; [| lra].
    rewrite H99. pose proof (py_round1_le 99 x Hhi) as Hr.
    unfold clamp_rounded, py_max, py_min.
    destruct (Rlt_dec (py_round1 x) 99.0); [lra |].
    destruct (Rlt_dec 1.0 99.0); lra.
  - unfold Rmax. destruct (Rle_dec 1 x) as [Hlo | Hlo].
    + pose proof (py_round1_le 1 x Hlo) as Hr1.
      assert (Hx99 : x <= 99) by lra.
      pose proof (py_round1_le x 99 Hx99) as Hr2.
      unfold clamp_rounded, py_max, py_min.
      destruct (Rlt_dec (py_round1 x) 99.0);
        destruct (Rlt_dec 1.0 _); lra.
    + rewrite H1.
      assert (Hx1 : x <= 1) by lra.
      pose proof (py_round1_le x 1 Hx1) as Hr.
      unfold clamp_rounded, py_max, py_min.
      destruct (Rlt_dec (py_round1 x) 99.0);
        destruct (Rlt_dec 1.0 _); lra.
Qed.

(** ** Powers of the literal base *)

Lemma base_gt_1 : 1 < 2.71828.
Proof. lra. Qed.

Lemma Rpower_base_pos (x : R) : 0 < Rpower 2.71828 x.
Proof. unfold Rpower. apply exp_pos. Qed.

Lemma Rpower_base_le (x y : R) :
  x <= y -> Rpower 2.71828 x <= Rpower 2.71828 y.
Proof. intros H. apply Rle_Rpower; [lra | exact H]. Qed.

Lemma Rpower_base_lt (x y : R) :
  x < y -> Rpower 2.71828 x < Rpower 2.71828 y.
Proof. intros H. apply Rpower_lt; [lra | exact H]. Qed.

Lemma Rpower_base_nat (n : nat) : Rpower 2.71828 (INR n) = 2.71828 ^ n.
Proof. apply Rpower_pow. lra. Qed.

(** [(b ** (-n/m)) ^ m = 1 / b ^ n] *)
Lemma Rpower_base_root (n m : nat) :
  (0 < m)%nat ->
  Rpower 2.71828 (- (INR n / INR m)) ^ m = / 2.71828 ^ n.
Proof.
  intros Hm.
  rewrite <- Rpower_pow by apply Rpower_base_pos.
  rewrite Rpower_mult.
  replace (- (INR n / INR m) * INR m) with (- INR n).
  - rewrite Rpower_Ropp, Rpower_base_nat. reflexivity.
  - field. apply not_0_INR. lia.
Qed.

Lemma ratio_pow_product (a d p q : Z) (m n : nat) :
  (0 < d)%Z -> (0 < q)%Z ->
  (IZR a / IZR d) ^ m * (IZR p / IZR q) ^ n
  = IZR (a ^ Z.of_nat m * p ^ Z.of_nat n) / IZR (d ^ Z.of_nat m * q ^ Z.of_nat n).
Proof.
  intros Hd Hq.
  rewrite !mult_IZR, <- !pow_IZR.
  unfold Rdiv. rewrite !Rpow_mult_distr, !pow_inv.
  assert (Hd' : IZR d ^ m <> 0) by (apply pow_nonzero, not_0_IZR; lia).
  assert (Hq' : IZR q ^ n <> 0) by (apply pow_nonzero, not_0_IZR; lia).
  field. split; assumption.
Qed.

Lemma IZR_ratio_lt_1 (x y : Z) : (0 < y)%Z -> (x < y)%Z -> IZR x / IZR y < 1.
Proof.
  intros Hy Hxy. apply IZR_lt in Hy, Hxy.
  apply Rmult_lt_reg_r with (IZR y); [exact Hy |].
  unfold Rdiv. rewrite Rmult_assoc, Rinv_l by lra. lra.
Qed.

Lemma IZR_ratio_gt_1 (x y : Z) : (0 < y)%Z -> (y < x)%Z -> 1 < IZR x / IZR y.
Proof.
  intros Hy Hxy. apply IZR_lt in Hy, Hxy.
  apply Rmult_lt_reg_r with (IZR y); [exact Hy |].
  unfold Rdiv. rewrite Rmult_assoc, Rinv_l by lra. lra.
Qed.

(** A rational below [2.71828 ** (-n/m)], by comparing integer powers. *)
Lemma Rpower_base_above (a d n m : Z) :
  (0 < a)%Z -> (0 < d)%Z -> (0 <= n)%Z -> (0 < m)%Z ->
  (a ^ m * 271828 ^ n < d ^ m * 100000 ^ n)%Z ->
  IZR a / IZR d < Rpower 2.71828 (- (IZR n / IZR m)).
Proof.
  intros Ha Hd Hn Hm Hlt.
  set (t := Rpower 2.71828 (- (IZR n / IZR m))).
  destruct (Rlt_le_dec (IZR a / IZR d) t) as [Hok | Hle]; [exact Hok | exfalso].
  assert (Ht : 0 < t) by apply Rpower_base_pos.
  assert (Hpow : t ^ Z.to_nat m <= (IZR a / IZR d) ^ Z.to_nat m).
  { apply pow_incr. lra. }
  unfold t in Hpow.
  rewrite <- (Z2Nat.id n), <- (Z2Nat.id m), <- !INR_IZR_INZ in Hpow by lia.
  rewrite Nat2Z.id in Hpow.
  rewrite Rpower_base_root in Hpow by lia.
  assert (Hb : 0 < 2.71828 ^ Z.to_nat n) by (apply pow_lt; lra).
  assert (Hone : 1 <= (IZR a / IZR d) ^ Z.to_nat m * 2.71828 ^ Z.to_nat n).
  { apply Rmult_le_reg_r with (/ 2.71828 ^ Z.to_nat n).
    - apply Rinv_0_lt_compat, Hb.
    - rewrite Rmult_assoc, Rinv_r by lra. lra. }
  replace 2.71828 with (IZR 271828 / IZR 100000) in Hone by lra.
  rewrite ratio_pow_product in Hone by lia.
  rewrite !Z2Nat.id in Hone by lia.
  assert (Hpos : (0 < d ^ m * 100000 ^ n)%Z).
  { apply Z.mul_pos_pos; apply Z.pow_pos_nonneg; lia. }
  pose proof (IZR_ratio_lt_1 _ _ Hpos Hlt). lra.
Qed.

(** A rational above [2.71828 ** (-n/m)]. *)
Lemma Rpower_base_below (a d n m : Z) :
  (0 < a)%Z -> (0 < d)%Z -> (0 <= n)%Z -> (0 < m)%Z ->
  (d ^ m * 100000 ^ n < a ^ m * 271828 ^ n)%Z ->
  Rpower 2.71828 (- (IZR n / IZR m)) < IZR a / IZR d.
Proof.
  intros Ha Hd Hn Hm Hlt.
  set (t := Rpower 2.71828 (- (IZR n / IZR m))).
  destruct (Rlt_le_dec t (IZR a / IZR d)) as [Hok | Hle]; [exact Hok | exfalso].
  assert (Hc : 0 < IZR a / IZR d).
  { apply Rdiv_lt_0_compat; apply IZR_lt; lia. }
  assert (Hpow : (IZR a / IZR d) ^ Z.to_nat m <= t ^ Z.to_nat m).
  { apply pow_incr. lra. }
  unfold t in Hpow.
  rewrite <- (Z2Nat.id n), <- (Z2Nat.id m), <- !INR_IZR_INZ in Hpow by lia.
  rewrite Nat2Z.id in Hpow.
  rewrite Rpower_base_root in Hpow by lia.
  assert (Hb : 0 < 2.71828 ^ Z.to_nat n) by (apply pow_lt; lra).
  assert (Hone : (IZR a / IZR d) ^ Z.to_nat m * 2.71828 ^ Z.to_nat n <= 1).
  { apply Rmult_le_reg_r with (/ 2.71828 ^ Z.to_nat n).
    - apply Rinv_0_lt_compat, Hb.
    - rewrite Rmult_assoc, Rinv_r by lra. lra. }
  replace 2.71828 with (IZR 271828 / IZR 100000) in Hone by lra.
  rewrite ratio_pow_product in Hone by lia.
  rewrite !Z2Nat.id in Hone by lia.
  assert (Hpos : (0 < d ^ m * 100000 ^ n)%Z).
  { apply Z.mul_pos_pos; apply Z.pow_pos_nonneg; lia. }
  pose proof (IZR_ratio_gt_1 _ _ Hpos Hlt). lra.
Qed.

Lemma big_pow_lt (a m p n d q : Z) :
  BigZ.ltb (BigZ.of_Z a ^ BigZ.of_Z m * BigZ.of_Z p ^ BigZ.of_Z n)
           (BigZ.of_Z d ^ BigZ.of_Z m * BigZ.of_Z q ^ BigZ.of_Z n) = true ->
  (a ^ m * p ^ n < d ^ m * q ^ n)%Z.
Proof.
  rewrite BigZ.spec_ltb, !BigZ.spec_mul, !BigZ.spec_pow, !BigZ.spec_of_Z.
  apply Z.ltb_lt.
Qed.


(** ** The linear predictor of a well-formed profile *)

Lemma linear_predictor_profile (p : PatientProfile) :
  linear_predictor (session_of p) = Ok (spec_lp p).
Proof.
  destruct p as [a s d sm e l b c st pa].
  unfold linear_predictor, session_of, spec_lp.
  unfold term_intercept, term_age, term_female, term_diabetes, term_smoker,
    term_egfr_lt_30, term_egfr_30_60, term_polyvascular, term_ldl, term_sbp,
    vascular_territory_count.
  destruct s, c, st, pa; cbn -[Rlt_dec Rle_dec];
    unfold sum_numbers; cbn -[Rlt_dec Rle_dec];
    f_equal;
    match goal with
    | |- context [Rle_dec 2 (IZR ?z)] => destruct (Rle_dec 2 (IZR z))
    end; lra.
Qed.

Lemma egfr_terms_exclusive (p : PatientProfile) :
  term_egfr_lt_30 p = 0 \/ term_egfr_30_60 p = 0.
Proof.
  unfold term_egfr_lt_30, term_egfr_30_60.
  destruct (Rlt_dec (p_egfr p) 30); destruct (Rle_dec 30 (p_egfr p));
    try destruct (Rlt_dec (p_egfr p) 60); auto; lra.
Qed.

(** ** Range of the two powers *)

Lemma float_overflow_gt_1 : 1 < IZR float_overflow.
Proof. apply IZR_lt. unfold Z.lt. vm_compute. reflexivity. Qed.

Lemma ratio_pow_lt (p q c : Z) (n : nat) :
  (0 < q)%Z -> (p ^ Z.of_nat n < c * q ^ Z.of_nat n)%Z ->
  (IZR p / IZR q) ^ n < IZR c.
Proof.
  intros Hq Hlt.
  assert (Hqn : (0 < q ^ Z.of_nat n)%Z) by (apply Z.pow_pos_nonneg; lia).
  apply IZR_lt in Hlt, Hqn.
  rewrite mult_IZR in Hlt.
  unfold Rdiv. rewrite Rpow_mult_distr, pow_inv, !pow_IZR.
  generalize dependent (IZR (q ^ Z.of_nat n)).
  generalize dependent (IZR (p ^ Z.of_nat n)).
  intros x y Hlt Hy.
  apply Rmult_lt_reg_r with y; [exact Hy |].
  rewrite Rmult_assoc, Rinv_l by lra. lra.
Qed.

Lemma Rpower_base_709 : Rpower 2.71828 709 < IZR float_overflow.
Proof.
  replace 709 with (INR 709) by (rewrite INR_IZR_INZ; reflexivity).
  rewrite Rpower_base_nat.
  replace 2.71828 with (IZR 271828 / IZR 100000) by lra.
  apply ratio_pow_lt; [reflexivity |].
  change (Z.of_nat 709) with 709%Z.
  rewrite <- (Z.mul_1_l (271828 ^ 709)), <- (Z.pow_1_r 1) at 1.
  rewrite <- (Z.pow_1_r float_overflow).
  apply big_pow_lt. vm_compute. reflexivity.
Qed.

Lemma Rpower_base_1024 : IZR float_overflow < Rpower 2.71828 1024.
Proof.
  replace 1024 with (INR 1024) by (rewrite INR_IZR_INZ; reflexivity).
  rewrite Rpower_base_nat.
  apply Rlt_le_trans with (2 ^ 1024).
  - rewrite pow_IZR. apply IZR_lt.
    change (Z.of_nat 1024) with 1024%Z.
    unfold float_overflow.
    assert (0 < 2 ^ 970)%Z by (apply Z.pow_pos_nonneg; lia). lia.
  - apply pow_incr. lra.
Qed.

Lemma py_pow_in_range (lp : R) :
  lp_in_range lp -> py_pow 2.71828 lp = Ok (Rpower 2.71828 lp).
Proof.
  unfold lp_in_range, py_pow. intros Hlp.
  pose proof (Rpower_base_le lp 709 Hlp) as Hle.
  pose proof Rpower_base_709 as H709.
  destruct (Rlt_dec (Rpower 2.71828 lp) (IZR float_overflow)); [reflexivity | lra].
Qed.

Lemma py_pow_overflow (lp : R) :
  1024 <= lp -> py_pow 2.71828 lp = Raise OverflowError.
Proof.
  unfold py_pow. intros Hlp.
  pose proof (Rpower_base_le 1024 lp Hlp) as Hle.
  pose proof Rpower_base_1024 as H1024.
  destruct (Rlt_dec (Rpower 2.71828 lp) (IZR float_overflow)); [lra | reflexivity].
Qed.

(** The outer power has a negative exponent and never overflows. *)
Lemma py_pow_nonpositive (x : R) :
  x <= 0 -> py_pow 2.71828 x = Ok (Rpower 2.71828 x).
Proof.
  unfold py_pow. intros Hx.
  pose proof (Rpower_base_le x 0 Hx) as Hle.
  rewrite Rpower_O in Hle by lra.
  pose proof float_overflow_gt_1 as H1.
  destruct (Rlt_dec (Rpower 2.71828 x) (IZR float_overflow)); [reflexivity | lra].
Qed.

Lemma risk_percent_cases (lp : R) :
  (~ power_overflows lp /\ risk_percent lp = Ok (literal_risk_percent_raw lp))
  \/ (power_overflows lp /\ risk_percent lp = Raise OverflowError).
Proof.
  unfold power_overflows, literal_risk_percent_raw.
  assert (Hinner : py_pow 2.71828 lp
                   = if Rlt_dec (Rpower 2.71828 lp) (IZR float_overflow)
                     then Ok (Rpower 2.71828 lp) else Raise OverflowError)
    by reflexivity.
  unfold risk_percent. rewrite Hinner.
  destruct (Rlt_dec (Rpower 2.71828 lp) (IZR float_overflow)) as [Hin | Hout].
  - left. split; [lra |]. simpl.
    rewrite py_pow_nonpositive; [reflexivity |].
    pose proof (Rpower_base_pos lp). lra.
  - right. split; [lra | reflexivity].
Qed.

Lemma risk_percent_in_range (lp : R) :
  lp_in_range lp -> risk_percent lp = Ok (literal_risk_percent_raw lp).
Proof.
  intros Hlp.
  destruct (risk_percent_cases lp) as [[_ H] | [Hov _]]; [exact H | exfalso].
  unfold power_overflows in Hov.
  pose proof (Rpower_base_le lp 709 Hlp). pose proof Rpower_base_709. lra.
Qed.

Lemma widget_range_lp (p : PatientProfile) :
  in_widget_range p -> spec_lp p <= 0 /\ lp_in_range (spec_lp p).
Proof.
  unfold in_widget_range, lp_in_range, spec_lp.
  unfold term_intercept, term_age, term_female, term_diabetes, term_smoker,
    term_egfr_lt_30, term_egfr_30_60, term_polyvascular, term_ldl, term_sbp.
  intros (Ha & He & Hl & Hs).
  assert (Hf : (if is_female (p_sex p) then -0.3372 else 0) <= 0)
    by (destruct (is_female (p_sex p)); lra).
  assert (Hd : (if p_diabetes p then 0.5034 else 0) <= 0.5034)
    by (destruct (p_diabetes p); lra).
  assert (Hsm : (if p_smoker p then 0.7862 else 0) <= 0.7862)
    by (destruct (p_smoker p); lra).
  assert (Hv : (if (2 <=? vascular_territory_count p)%nat then 0.5434 else 0)
               <= 0.5434)
    by (destruct (2 <=? vascular_territory_count p)%nat; lra).
  destruct (Rlt_dec (p_egfr p) 30), (Rle_dec 30 (p_egfr p));
    try destruct (Rlt_dec (p_egfr p) 60); lra.
Qed.

Lemma py_round1_exact (k : Z) (x : R) :
  IZR k / 10 - 0.05 < x < IZR k / 10 + 0.05 -> py_round1 x = IZR k / 10.
Proof.
  intros Hx. unfold py_round1.
  pose proof (round_half_even_near (x * 10)) as Hn.
  assert (Heq : round_half_even (x * 10) = k).
  { assert (Hlo : IZR (k - 1) < IZR (round_half_even (x * 10))).
    { rewrite minus_IZR. lra. }
    assert (Hhi : IZR (round_half_even (x * 10)) < IZR (k + 1)).
    { rewrite plus_IZR. lra. }
    apply lt_IZR in Hlo, Hhi. lia. }
  now rewrite Heq.
Qed.

(** ** The transform as a real function *)

Lemma literal_raw_le (lp1 lp2 : R) :
  lp1 <= lp2 -> literal_risk_percent_raw lp1 <= literal_risk_percent_raw lp2.
Proof.
  intros Hlp. unfold literal_risk_percent_raw.
  pose proof (Rpower_base_le lp1 lp2 Hlp) as Hinner.
  assert (Hexp : - Rpower 2.71828 lp2 * 10 <= - Rpower 2.71828 lp1 * 10) by lra.
  pose proof (Rpower_base_le _ _ Hexp). lra.
Qed.

Lemma literal_raw_bounds (lp : R) : 0 < literal_risk_percent_raw lp < 100.
Proof.
  unfold literal_risk_percent_raw.
  pose proof (Rpower_base_pos lp) as Hin.
  pose proof (Rpower_base_pos (- Rpower 2.71828 lp * 10)) as Hout.
  assert (Hneg : - Rpower 2.71828 lp * 10 < 0) by lra.
  pose proof (Rpower_base_lt _ _ Hneg) as Hlt.
  rewrite Rpower_O in Hlt by lra. lra.
Qed.

(** ** The function on a well-formed profile *)

Lemma try_block_raw (st : session_state) :
  try_block st = rp <- raw_risk st ;; Ok (clamp_rounded rp).
Proof.
  unfold try_block, raw_risk.
  destruct (linear_predictor st); reflexivity.
Qed.

Lemma raw_risk_profile (p : PatientProfile) :
  raw_risk (session_of p) = risk_percent (spec_lp p).
Proof. unfold raw_risk. now rewrite linear_predictor_profile. Qed.

Lemma calculate_profile (p : PatientProfile) :
  calculate_smart2_risk (session_of p)
  = match risk_percent (spec_lp p) with
    | Ok rp => Ok (Some (clamp_rounded rp))
    | Raise _ => Ok None
    end.
Proof.
  unfold calculate_smart2_risk.
  rewrite try_block_raw, raw_risk_profile.
  destruct (risk_percent (spec_lp p)); reflexivity.
Qed.

Lemma calculate_profile_in_range (p : PatientProfile) :
  lp_in_range (spec_lp p) ->
  calculate_smart2_risk (session_of p)
  = Ok (Some (clamp_rounded (literal_risk_percent_raw (spec_lp p)))).
Proof.
  intros Hlp. rewrite calculate_profile.
  now rewrite risk_percent_in_range.
Qed.

Lemma calculate_profile_overflow (p : PatientProfile) :
  1024 <= spec_lp p -> calculate_smart2_risk (session_of p) = Ok None.
Proof.
  intros Hlp. rewrite calculate_profile.
  unfold risk_percent. now rewrite py_pow_overflow.
Qed.

(** ** Monotonicity of the linear predictor *)

Ltac bool_le_cases :=
  unfold bool_le in *;
  repeat match goal with
         | H : true = true -> false = true |- _ =>
             specialize (H eq_refl); discriminate H
         end.

Lemma term_flag_le (a b : bool) (c : R) :
  0 <= c -> bool_le a b -> (if a then c else 0) <= (if b then c else 0).
Proof. intros Hc Hab. destruct a, b; bool_le_cases; lra. Qed.

Lemma term_polyvascular_le (p p' : PatientProfile) :
  bool_le (p_cad p) (p_cad p') -> bool_le (p_stroke p) (p_stroke p') ->
  bool_le (p_pad p) (p_pad p') ->
  term_polyvascular p <= term_polyvascular p'.
Proof.
  unfold term_polyvascular, vascular_territory_count.
  intros H1 H2 H3.
  destruct (p_cad p), (p_cad p'); bool_le_cases;
    destruct (p_stroke p), (p_stroke p'); bool_le_cases;
    destruct (p_pad p), (p_pad p'); bool_le_cases; simpl; lra.
Qed.

Lemma term_egfr_le (p p' : PatientProfile) :
  p_egfr p' <= p_egfr p ->
  term_egfr_lt_30 p + term_egfr_30_60 p
  <= term_egfr_lt_30 p' + term_egfr_30_60 p'.
Proof.
  unfold term_egfr_lt_30, term_egfr_30_60. intros He.
  repeat match goal with
         | |- context [Rle_dec ?x ?y] => destruct (Rle_dec x y)
         | |- context [Rlt_dec ?x ?y] => destruct (Rlt_dec x y)
         end; lra.
Qed.

Lemma spec_lp_le (p p' : PatientProfile) :
  riskier p p' -> spec_lp p <= spec_lp p'.
Proof.
  intros (Ha & Hs & Hd & Hsm & He & Hl & Hb & Hc & Hst & Hp).
  pose proof (term_polyvascular_le p p' Hc Hst Hp) as Hpoly.
  pose proof (term_egfr_le p p' He) as Hegfr.
  pose proof (term_flag_le _ _ 0.5034 ltac:(lra) Hd) as Hdia.
  pose proof (term_flag_le _ _ 0.7862 ltac:(lra) Hsm) as Hsmo.
  unfold spec_lp, term_intercept, term_age, term_female, term_diabetes,
    term_smoker, term_ldl, term_sbp.
  rewrite Hs. lra.
Qed.

(** ** The literal base is not Euler's number *)





(** ** Numerical enclosures *)

Lemma literal_raw_enclosure (lp u_lo u_hi t_lo t_hi : R) :
  u_lo < Rpower 2.71828 lp < u_hi ->
  t_lo < Rpower 2.71828 (- (u_hi * 10)) ->
  Rpower 2.71828 (- (u_lo * 10)) < t_hi ->
  100 * (1 - t_hi) < literal_risk_percent_raw lp < 100 * (1 - t_lo).
Proof.
  intros [Hlo Hhi] Ht_lo Ht_hi. unfold literal_risk_percent_raw.
  assert (H1 : - (u_hi * 10) <= - Rpower 2.71828 lp * 10) by lra.
  assert (H2 : - Rpower 2.71828 lp * 10 <= - (u_lo * 10)) by lra.
  apply Rpower_base_le in H1, H2. lra.
Qed.

(** [a/d < 2.71828 ** (-n/m)] and [2.71828 ** (-n/m) < a/d], decided on
    integer powers. *)
Ltac power_above a d n m :=
  apply Rle_lt_trans with (IZR a / IZR d); [lra |];
  apply Rlt_le_trans with (Rpower 2.71828 (- (IZR n / IZR m)));
  [ apply Rpower_base_above;
    [ reflexivity | reflexivity | discriminate | reflexivity
    | apply big_pow_lt; vm_compute; reflexivity ]
  | apply Rpower_base_le; lra ].

Ltac power_below a d n m :=
  apply Rle_lt_trans with (Rpower 2.71828 (- (IZR n / IZR m)));
  [ apply Rpower_base_le; lra |];
  apply Rlt_le_trans with (IZR a / IZR d);
  [ apply Rpower_base_below;
    [ reflexivity | reflexivity | discriminate | reflexivity
    | apply big_pow_lt; vm_compute; reflexivity ]
  | lra ].

Lemma scenario_A_raw : 0 < literal_risk_percent_raw (-8.1937) < 1.
Proof.
  split; [apply literal_raw_bounds |].
  assert (Hu : 0 < Rpower 2.71828 (-8.1937) < 0.0004).
  { split; [apply Rpower_base_pos |].
    power_below 4%Z 10000%Z 8%Z 1%Z. }
  assert (Hlo : 0.99 < Rpower 2.71828 (- (0.0004 * 10))).
  { power_above 99%Z 100%Z 4%Z 1000%Z. }
  unfold literal_risk_percent_raw.
  assert (H1 : - (0.0004 * 10) <= - Rpower 2.71828 (-8.1937) * 10) by lra.
  apply Rpower_base_le in H1. lra.
Qed.

Lemma extreme_high_male_raw :
  80.85 < literal_risk_percent_raw (-1.7987) < 80.95.
Proof.
  pose proof (literal_raw_enclosure (-1.7987) 0.1654 0.1657 0.1907 0.1913) as H.
  assert (Hu : 0.1654 < Rpower 2.71828 (-1.7987) < 0.1657).
  { split.
    - power_above 1654%Z 10000%Z 1799%Z 1000%Z.
    - power_below 1657%Z 10000%Z 1798%Z 1000%Z. }
  assert (Hlo : 0.1907 < Rpower 2.71828 (- (0.1657 * 10))).
  { power_above 1907%Z 10000%Z 1657%Z 1000%Z. }
  assert (Hhi : Rpower 2.71828 (- (0.1654 * 10)) < 0.1913).
  { power_below 1913%Z 10000%Z 1654%Z 1000%Z. }
  specialize (H Hu Hlo Hhi). lra.
Qed.

Lemma extreme_high_female_raw :
  69.25 < literal_risk_percent_raw (-2.1359) < 69.35.
Proof.
  pose proof (literal_raw_enclosure (-2.1359) 0.1181 0.1182 0.3066 0.3070) as H.
  assert (Hu : 0.1181 < Rpower 2.71828 (-2.1359) < 0.1182).
  { split.
    - power_above 1181%Z 10000%Z 2136%Z 1000%Z.
    - power_below 1182%Z 10000%Z 4271%Z 2000%Z. }
  assert (Hlo : 0.3066 < Rpower 2.71828 (- (0.1182 * 10))).
  { power_above 3066%Z 10000%Z 1182%Z 1000%Z. }
  assert (Hhi : Rpower 2.71828 (- (0.1181 * 10)) < 0.3070).
  { power_below 3070%Z 10000%Z 1181%Z 1000%Z. }
  specialize (H Hu Hlo Hhi). lra.
Qed.

Lemma spec_lp_scenario_A : spec_lp scenario_A = -8.1937.
Proof.
  unfold spec_lp, term_intercept, term_age, term_female, term_diabetes,
    term_smoker, term_egfr_lt_30, term_egfr_30_60, term_polyvascular,
    term_ldl, term_sbp, scenario_A; simpl.
  destruct (Rlt_dec 90 30), (Rle_dec 30 90), (Rlt_dec 90 60); lra.
Qed.

Lemma spec_lp_extreme_high (s : sex_t) :
  spec_lp (extreme_high s)
  = match s with Male => -1.7987 | Female => -2.1359 end.
Proof.
  unfold spec_lp, term_intercept, term_age, term_female, term_diabetes,
    term_smoker, term_egfr_lt_30, term_egfr_30_60, term_polyvascular,
    term_ldl, term_sbp, extreme_high; simpl.
  destruct (Rlt_dec 120 30), (Rle_dec 30 120), (Rlt_dec 120 60);
    destruct s; simpl; lra.
Qed.

(** ** When the [try] block fails *)

Lemma linear_predictor_outcome (st : session_state) :
  match linear_predictor st with
  | Ok _ => ~ input_rejected st
  | Raise _ => input_rejected st
  end.
Proof.
  unfold linear_predictor, input_rejected, key_absent, float_rejects,
    flags_not_summable.
  destruct (age st) as [va |] eqn:Ea; cbn [getattr bind]; [| tauto].
  destruct (py_float va) as [xa | ea] eqn:Fa; cbn [bind];
    [| right; left; eauto].
  destruct (egfr st) as [ve |] eqn:Ee; cbn [getattr bind]; [| tauto].
  destruct (py_float ve) as [xe | ee] eqn:Fe; cbn [bind];
    [| right; right; left; eauto].
  destruct (ldl st) as [vl |] eqn:El; cbn [getattr bind]; [| tauto].
  destruct (py_float vl) as [xl | el] eqn:Fl; cbn [bind];
    [| right; right; right; left; eauto].
  destruct (sbp st) as [vb |] eqn:Eb; cbn [getattr bind]; [| tauto].
  destruct (py_float vb) as [xb | eb] eqn:Fb; cbn [bind];
    [| right; right; right; right; left; eauto].
  destruct (cad st) as [vc |] eqn:Ec; cbn [getattr bind]; [| tauto].
  destruct (stroke st) as [vs |] eqn:Es; cbn [getattr bind]; [| tauto].
  destruct (pad st) as [vp |] eqn:Ep; cbn [getattr bind]; [| tauto].
  destruct (py_sum [vc; vs; vp]) as [n | en] eqn:Fs; cbn [bind];
    [| right; right; right; right; right; eauto 10].
  destruct (sex st) as [vx |] eqn:Ex; cbn [getattr bind]; [| tauto].
  destruct (diabetes st) as [vd |] eqn:Ed; cbn [getattr bind]; [| tauto].
  destruct (smoker st) as [vm |] eqn:Em; cbn [getattr bind]; [| tauto].
  intros [Habs | [Hr | [Hr | [Hr | [Hr | Hr]]]]].
  - intuition congruence.
  - destruct Hr as (v & e & Hv & He). congruence.
  - destruct Hr as (v & e & Hv & He). congruence.
  - destruct Hr as (v & e & Hv & He). congruence.
  - destruct Hr as (v & e & Hv & He). congruence.
  - destruct Hr as (c & s & p & e & Hc & Hs & Hp & He). congruence.
Qed.

Lemma linear_predictor_raises (st : session_state) :
  (exists e, linear_predictor st = Raise e) <-> input_rejected st.
Proof.
  pose proof (linear_predictor_outcome st) as H.
  destruct (linear_predictor st) as [lp | e].
  - split; [intros [e He]; discriminate | tauto].
  - split; [intros _; exact H | intros _; now exists e].
Qed.

Lemma calculate_cases (st : session_state) :
  calculate_smart2_risk st
  = match linear_predictor st with
    | Ok lp =>
        match risk_percent lp with
        | Ok rp => Ok (Some (clamp_rounded rp))
        | Raise _ => Ok None
        end
    | Raise _ => Ok None
    end.
Proof.
  unfold calculate_smart2_risk, try_block.
  destruct (linear_predictor st) as [lp | e]; cbn [bind]; [| reflexivity].
  destruct (risk_percent lp); reflexivity.
Qed.

Lemma calculate_none_iff (st : session_state) :
  calculate_smart2_risk st = Ok None
  <-> input_rejected st
      \/ exists lp, linear_predictor st = Ok lp /\ power_overflows lp.
Proof.
  rewrite calculate_cases.
  pose proof (linear_predictor_outcome st) as Hout.
  destruct (linear_predictor st) as [lp | e].
  - destruct (risk_percent_cases lp) as [[Hno Hr] | [Hov Hr]]; rewrite Hr.
    + split; [discriminate |].
      intros [Hrej | (lp' & Hlp & Hov)]; [tauto |].
      injection Hlp as <-. tauto.
    + split; [| reflexivity]. intros _. right. now exists lp.
  - split; [intros _; now left | reflexivity].
Qed.

(** ** The example profiles *)

Lemma calculate_scenario_A :
  calculate_smart2_risk (session_of scenario_A) = Ok (Some 1).
Proof.
  rewrite calculate_profile_in_range, spec_lp_scenario_A
    by (unfold lp_in_range; rewrite spec_lp_scenario_A; lra).
  do 2 f_equal.
  pose proof scenario_A_raw as [_ Hraw].
  assert (Hle : literal_risk_percent_raw (-8.1937) <= 1) by lra.
  apply py_round1_le in Hle. rewrite py_round1_1 in Hle.
  unfold clamp_rounded, py_max, py_min.
  destruct (Rlt_dec (py_round1 (literal_risk_percent_raw (-8.1937))) 99.0);
    destruct (Rlt_dec 1.0 _); lra.
Qed.

Lemma clamp_rounded_exact (k : Z) (x : R) :
  (10 <= k <= 990)%Z ->
  IZR k / 10 - 0.05 < x < IZR k / 10 + 0.05 ->
  clamp_rounded x = IZR k / 10.
Proof.
  intros [Hlo Hhi] Hx.
  unfold clamp_rounded. rewrite (py_round1_exact k x Hx).
  apply IZR_le in Hlo, Hhi.
  unfold py_max, py_min.
  destruct (Rlt_dec (IZR k / 10) 99.0); destruct (Rlt_dec 1.0 _); lra.
Qed.

Lemma calculate_extreme_high (s : sex_t) :
  calculate_smart2_risk (session_of (extreme_high s))
  = Ok (Some (match s with Male => 80.9 | Female => 69.3 end)).
Proof.
  rewrite calculate_profile_in_range
    by (unfold lp_in_range; rewrite spec_lp_extreme_high; destruct s; lra).
  rewrite spec_lp_extreme_high. do 2 f_equal.
  destruct s.
  - replace 80.9 with (IZR 809 / 10) by lra.
    apply clamp_rounded_exact; [lia |].
    pose proof extreme_high_male_raw. lra.
  - replace 69.3 with (IZR 693 / 10) by lra.
    apply clamp_rounded_exact; [lia |].
    pose proof extreme_high_female_raw. lra.
Qed.

Lemma calculate_age_100000 :
  calculate_smart2_risk (session_of age_100000) = Ok None.
Proof.
  apply calculate_profile_overflow.
  unfold spec_lp, term_intercept, term_age, term_female, term_diabetes,
    term_smoker, term_egfr_lt_30, term_egfr_30_60, term_polyvascular,
    term_ldl, term_sbp, age_100000; simpl.
  destruct (Rlt_dec 90 30), (Rle_dec 30 90), (Rlt_dec 90 60); lra.
Qed.

Lemma calculate_sbp_1000000 :
  calculate_smart2_risk (session_of sbp_1000000) = Ok None.
Proof.
  apply calculate_profile_overflow.
  unfold spec_lp, term_intercept, term_age, term_female, term_diabetes,
    term_smoker, term_egfr_lt_30, term_egfr_30_60, term_polyvascular,
    term_ldl, term_sbp, sbp_1000000; simpl.
  destruct (Rlt_dec 90 30), (Rle_dec 30 90), (Rlt_dec 90 60); lra.
Qed.

(** * The claims *)

(** C1: on every well-formed profile the linear predictor of the code is
    the sum of the ten terms: intercept -8.1937, 0.0635*(age-60), -0.3372
    for a female, 0.5034 for diabetes, 0.7862 for a current smoker, 0.9235
    for egfr < 30, 0.5539 for 30 <= egfr < 60, 0.5434 for two or more
    vascular territories, 0.2436*(ldl-2.5) and 0.0083*(sbp-120); the two
    eGFR terms never both apply and both vanish from 60 upwards. *)
Theorem C1_linear_predictor_ten_terms (p : PatientProfile) :
  linear_predictor (session_of p)
  = Ok (term_intercept + term_age p + term_female p + term_diabetes p
        + term_smoker p + term_egfr_lt_30 p + term_egfr_30_60 p
        + term_polyvascular p + term_ldl p + term_sbp p)
  /\ (term_egfr_lt_30 p = 0 \/ term_egfr_30_60 p = 0)
  /\ (p_egfr p < 60 \/ (term_egfr_lt_30 p = 0 /\ term_egfr_30_60 p = 0)).
Proof.
  split; [apply linear_predictor_profile |].
  split; [apply egfr_terms_exclusive |].
  unfold term_egfr_lt_30, term_egfr_30_60.
  destruct (Rlt_dec (p_egfr p) 60) as [Hlt | Hge]; [now left | right].
  destruct (Rlt_dec (p_egfr p) 30); [lra |].
  destruct (Rle_dec 30 (p_egfr p)); split; reflexivity.
Qed.


(** C3, as amended: on every well-formed profile either 2.71828 ** lp
    overflows and the function returns None, or it returns a number in
    [1.0, 99.0] that is a whole number of tenths. *)
Theorem C3_risk_in_range_or_overflow (p : PatientProfile) :
  (power_overflows (spec_lp p)
   /\ calculate_smart2_risk (session_of p) = Ok None)
  \/ (exists r : R,
        calculate_smart2_risk (session_of p) = Ok (Some r)
        /\ 1 <= r <= 99 /\ exists k : Z, r = IZR k / 10).
Proof.
  rewrite calculate_profile.
  destruct (risk_percent_cases (spec_lp p)) as [[_ H] | [Hov H]]; rewrite H.
  - right. exists (clamp_rounded (literal_risk_percent_raw (spec_lp p))).
    split; [reflexivity |].
    split; [apply clamp_rounded_bounds | apply clamp_rounded_tenths].
  - left. now split.
Qed.

(** C4: on every well-formed profile the returned risk is what clamping
    [risk_percent] to [1, 99] first and rounding to one decimal afterwards
    gives, although the code rounds first and clamps afterwards. *)
Theorem C4_clamp_then_round (p : PatientProfile) :
  calculate_smart2_risk (session_of p)
  = match raw_risk (session_of p) with
    | Ok raw => Ok (Some (spec_clamp_then_round raw))
    | Raise _ => Ok None
    end.
Proof.
  unfold calculate_smart2_risk. rewrite try_block_raw.
  destruct (raw_risk (session_of p)) as [raw | e]; cbn [bind]; [| reflexivity].
  now rewrite clamp_rounded_spec_order.
Qed.

(** C5: the tier shown for a returned risk is very high exactly from 30
    upwards, high exactly on [20, 30) and moderate exactly below 20; the
    first tab shows this tier of the returned risk. *)
Theorem C5_tier_boundaries (st : session_state) (risk : R) :
  (tier_of risk = VeryHigh <-> 30 <= risk)
  /\ (tier_of risk = High <-> 20 <= risk < 30)
  /\ (tier_of risk = Moderate <-> risk < 20)
  /\ match calculate_smart2_risk st with
     | Ok (Some r) => main_tab1 st = Ok (RiskEstimate r (tier_of r))
     | Ok None => main_tab1 st = Ok CompleteAllFields
     | Raise e => main_tab1 st = Raise e
     end.
Proof.
  unfold tier_of, main_tab1.
  repeat split;
    try (destruct (Rle_dec 30 risk); destruct (Rle_dec 20 risk);
         (lra || intros; (discriminate || lra || reflexivity)));
    try (destruct (calculate_smart2_risk st) as [[r |] | e]; reflexivity).
Qed.

(** C6, as amended: the function never raises; it returns None exactly
    when a key is absent, [float()] rejects age, egfr, ldl or sbp, the
    vascular flags cannot be summed, or 2.71828 ** lp overflows; on a
    well-formed profile the last is the only way to get None. *)
Theorem C6_none_exactly_when (st : session_state) (p : PatientProfile) :
  (exists v, calculate_smart2_risk st = Ok v)
  /\ (calculate_smart2_risk st = Ok None
      <-> input_rejected st
          \/ exists lp, linear_predictor st = Ok lp /\ power_overflows lp)
  /\ (calculate_smart2_risk (session_of p) = Ok None
      <-> power_overflows (spec_lp p)).
Proof.
  split; [| split].
  - unfold calculate_smart2_risk. destruct (try_block st); eauto.
  - apply calculate_none_iff.
  - rewrite calculate_profile.
    destruct (risk_percent_cases (spec_lp p)) as [[Hno H] | [Hov H]];
      rewrite H; split; (discriminate || tauto || reflexivity).
Qed.

(** C7, as amended: between two well-formed profiles of the same sex, the
    second no younger, with no lower LDL or systolic pressure, no higher
    eGFR, and with every condition and vascular flag of the first, a risk
    returned for the second is matched by a risk returned for the first
    that is no larger. *)
Theorem C7_monotone (p p' : PatientProfile) (r' : R) :
  riskier p p' ->
  calculate_smart2_risk (session_of p') = Ok (Some r') ->
  exists r, calculate_smart2_risk (session_of p) = Ok (Some r) /\ r <= r'.
Proof.
  intros Hle Hcalc.
  pose proof (spec_lp_le p p' Hle) as Hlp.
  rewrite calculate_profile in *.
  destruct (risk_percent_cases (spec_lp p')) as [[Hno' H'] | [_ H']];
    rewrite H' in Hcalc; [| discriminate].
  injection Hcalc as <-.
  destruct (risk_percent_cases (spec_lp p)) as [[_ H] | [Hov _]].
  - rewrite H. eexists. split; [reflexivity |].
    apply clamp_rounded_le, literal_raw_le, Hlp.
  - exfalso. unfold power_overflows in *.
    pose proof (Rpower_base_le _ _ Hlp). lra.
Qed.

(** C8: for age 60, male, no diabetes, non-smoker, egfr 90, ldl 2.5,
    systolic pressure 120 and no vascular disease the linear predictor is
    -8.1937, the raw percentage is below 1 so that the returned risk is the
    lower clamp 1.0, and the tier is moderate. *)
Theorem C8_scenario_A :
  linear_predictor (session_of scenario_A) = Ok (-8.1937)
  /\ raw_risk (session_of scenario_A) = Ok (literal_risk_percent_raw (-8.1937))
  /\ literal_risk_percent_raw (-8.1937) < 1
  /\ calculate_smart2_risk (session_of scenario_A) = Ok (Some 1)
  /\ main_tab1 (session_of scenario_A) = Ok (RiskEstimate 1 Moderate).
Proof.
  split; [| split; [| split; [| split]]].
  - now rewrite linear_predictor_profile, spec_lp_scenario_A.
  - rewrite raw_risk_profile, spec_lp_scenario_A.
    apply risk_percent_in_range. unfold lp_in_range. lra.
  - apply scenario_A_raw.
  - apply calculate_scenario_A.
  - unfold main_tab1. rewrite calculate_scenario_A. cbn [bind].
    unfold tier_of.
    destruct (Rle_dec 30 1); [lra |]. destruct (Rle_dec 20 1); [lra |].
    reflexivity.
Qed.

(** C9, as amended: with age 90, egfr 120, ldl 10.0, systolic pressure 220
    and every checkbox ticked the returned risk is 80.9 for a male and 69.3
    for a female, below the upper clamp; the tier is very high. *)
Theorem C9_extreme_high_not_clamped (s : sex_t) :
  calculate_smart2_risk (session_of (extreme_high s))
  = Ok (Some (match s with Male => 80.9 | Female => 69.3 end))
  /\ main_tab1 (session_of (extreme_high s))
     = Ok (RiskEstimate (match s with Male => 80.9 | Female => 69.3 end)
                        VeryHigh).
Proof.
  split; [apply calculate_extreme_high |].
  unfold main_tab1. rewrite calculate_extreme_high. cbn [bind].
  unfold tier_of.
  destruct s;
    match goal with
    | |- context [Rle_dec 30 ?x] => destruct (Rle_dec 30 x); [reflexivity | lra]
    end.
Qed.

(** C10: whatever the session state holds, the function raises nothing: an
    exception of the [try] block, of whichever kind, becomes the result
    None, and a value of the block becomes the returned number. *)
Theorem C10_no_exception_escapes (st : session_state) :
  (forall e, calculate_smart2_risk st <> Raise e)
  /\ match try_block st with
     | Ok risk => calculate_smart2_risk st = Ok (Some risk)
     | Raise _ => calculate_smart2_risk st = Ok None
     end.
Proof.
  unfold calculate_smart2_risk.
  destruct (try_block st) as [risk | e]; split; try reflexivity;
    intros e'; discriminate.
Qed.

(** * Further properties of the code *)

(** ** Where the clamps act *)

Lemma py_round1_upper (k : Z) (x : R) :
  x < IZR k / 10 + 0.05 -> py_round1 x <= IZR k / 10.
Proof.
  intros Hx. unfold py_round1.
  pose proof (round_half_even_near (x * 10)) as Hn.
  assert (Hlt : IZR (round_half_even (x * 10)) < IZR (k + 1)).
  { rewrite plus_IZR. lra. }
  apply lt_IZR in Hlt.
  assert (Hle : IZR (round_half_even (x * 10)) <= IZR k) by (apply IZR_le; lia).
  lra.
Qed.

Lemma py_round1_lower (k : Z) (x : R) :
  IZR k / 10 - 0.05 < x -> IZR k / 10 <= py_round1 x.
Proof.
  intros Hx. unfold py_round1.
  pose proof (round_half_even_near (x * 10)) as Hn.
  assert (Hlt : IZR (k - 1) < IZR (round_half_even (x * 10))).
  { rewrite minus_IZR. lra. }
  apply lt_IZR in Hlt.
  assert (Hle : IZR k <= IZR (round_half_even (x * 10))) by (apply IZR_le; lia).
  lra.
Qed.

Lemma clamp_rounded_low (x : R) : x < 1.05 -> clamp_rounded x = 1.
Proof.
  intros Hx.
  assert (Hr : py_round1 x <= IZR 10 / 10) by (apply py_round1_upper; lra).
  unfold clamp_rounded, py_max, py_min.
  destruct (Rlt_dec (py_round1 x) 99.0); destruct (Rlt_dec 1.0 _); lra.
Qed.

Lemma clamp_rounded_high (x : R) : 98.95 < x -> clamp_rounded x = 99.
Proof.
  intros Hx.
  assert (Hr : IZR 990 / 10 <= py_round1 x) by (apply py_round1_lower; lra).
  unfold clamp_rounded, py_max, py_min.
  destruct (Rlt_dec (py_round1 x) 99.0); destruct (Rlt_dec 1.0 _); lra.
Qed.

Lemma literal_raw_low : literal_risk_percent_raw (-6.86) < 1.05.
Proof.
  pose proof (literal_raw_enclosure (-6.86) 0 0.00105 0.9895 2) as H.
  assert (Hu : 0 < Rpower 2.71828 (-6.86) < 0.00105).
  { split; [apply Rpower_base_pos |].
    power_below 105%Z 100000%Z 686%Z 100%Z. }
  assert (Hlo : 0.9895 < Rpower 2.71828 (- (0.00105 * 10))).
  { power_above 9895%Z 10000%Z 105%Z 10000%Z. }
  assert (Hhi : Rpower 2.71828 (- (0 * 10)) < 2).
  { replace (- (0 * 10)) with 0 by lra. rewrite Rpower_O; lra. }
  specialize (H Hu Hlo Hhi). lra.
Qed.

Lemma literal_raw_high : 98.95 < literal_risk_percent_raw (-0.78).
Proof.
  pose proof (literal_raw_enclosure (-0.78) 0.458 1 0 0.0104) as H.
  assert (Hu : 0.458 < Rpower 2.71828 (-0.78) < 1).
  { split.
    - power_above 458%Z 1000%Z 78%Z 100%Z.
    - rewrite <- (Rpower_O 2.71828) by lra. apply Rpower_base_lt. lra. }
  assert (Hlo : 0 < Rpower 2.71828 (- (1 * 10))) by apply Rpower_base_pos.
  assert (Hhi : Rpower 2.71828 (- (0.458 * 10)) < 0.0104).
  { power_below 104%Z 10000%Z 458%Z 100%Z. }
  specialize (H Hu Hlo Hhi). lra.
Qed.

Lemma literal_raw_widget_max : literal_risk_percent_raw (-0.8752) < 98.55.
Proof.
  pose proof (literal_raw_enclosure (-0.8752) 0 0.417 0.0154 2) as H.
  assert (Hu : 0 < Rpower 2.71828 (-0.8752) < 0.417).
  { split; [apply Rpower_base_pos |].
    power_below 417%Z 1000%Z 875%Z 1000%Z. }
  assert (Hlo : 0.0154 < Rpower 2.71828 (- (0.417 * 10))).
  { power_above 154%Z 10000%Z 417%Z 100%Z. }
  assert (Hhi : Rpower 2.71828 (- (0 * 10)) < 2).
  { replace (- (0 * 10)) with 0 by lra. rewrite Rpower_O; lra. }
  specialize (H Hu Hlo Hhi). lra.
Qed.

Lemma widget_range_lp_max (p : PatientProfile) :
  in_widget_range p -> spec_lp p <= -0.8752.
Proof.
  unfold in_widget_range, spec_lp.
  unfold term_intercept, term_age, term_female, term_diabetes, term_smoker,
    term_egfr_lt_30, term_egfr_30_60, term_polyvascular, term_ldl, term_sbp.
  intros (Ha & He & Hl & Hs).
  assert (Hf : (if is_female (p_sex p) then -0.3372 else 0) <= 0)
    by (destruct (is_female (p_sex p)); lra).
  assert (Hd : (if p_diabetes p then 0.5034 else 0) <= 0.5034)
    by (destruct (p_diabetes p); lra).
  assert (Hsm : (if p_smoker p then 0.7862 else 0) <= 0.7862)
    by (destruct (p_smoker p); lra).
  assert (Hv : (if (2 <=? vascular_territory_count p)%nat then 0.5434 else 0)
               <= 0.5434)
    by (destruct (2 <=? vascular_territory_count p)%nat; lra).
  destruct (Rlt_dec (p_egfr p) 30), (Rle_dec 30 (p_egfr p));
    try destruct (Rlt_dec (p_egfr p) 60); lra.
Qed.

Lemma calculate_widget_range (p : PatientProfile) :
  in_widget_range p ->
  exists r, calculate_smart2_risk (session_of p) = Ok (Some r)
            /\ 1 <= r <= 98.5.
Proof.
  intros Hr.
  pose proof (widget_range_lp p Hr) as [_ Hin].
  pose proof (widget_range_lp_max p Hr) as Hmax.
  rewrite (calculate_profile_in_range p Hin).
  eexists. split; [reflexivity |].
  split; [apply clamp_rounded_bounds |].
  apply literal_raw_le in Hmax. pose proof literal_raw_widget_max as Hw.
  assert (Hr1 : py_round1 (literal_risk_percent_raw (spec_lp p)) <= IZR 985 / 10)
    by (apply py_round1_upper; lra).
  unfold clamp_rounded, py_max, py_min.
  destruct (Rlt_dec (py_round1 (literal_risk_percent_raw (spec_lp p))) 99.0);
    destruct (Rlt_dec 1.0 _); lra.
Qed.

(** ** Numbers of other types in the numeric fields *)

Lemma py_float_int (z : Z) :
  (Z.abs z < float_overflow)%Z -> py_float (PyInt z) = Ok (IZR z).
Proof.
  intros Hz. unfold py_float, int_to_float.
  apply Z.ltb_lt in Hz. now rewrite Hz.
Qed.

Lemma small_int_converts (z : Z) :
  (Z.abs z <= 1000)%Z -> py_float (PyInt z) = Ok (IZR z).
Proof.
  intros Hz. apply py_float_int.
  assert (Hbig : (1000 < float_overflow)%Z) by (unfold Z.lt; vm_compute; reflexivity).
  generalize dependent float_overflow. intros. lia.
Qed.

(** ** The sidebar *)

(** One step of the sidebar or of the summary: a key is read, a widget
    or builtin returns. *)
Ltac run_step H :=
  match type of H with
  | context [getattr ?f] =>
      destruct f as [? |]; cbn [getattr bind] in H; [| discriminate H]
  | bind ?m _ = _ =>
      let E := fresh "E" in
      destruct m eqn:E; cbn [bind] in H; [| discriminate H]
  end.

Lemma sidebar_state (ui : streamlit) (st st' : session_state) :
  widgets_in_bounds ui ->
  sidebar ui st = Ok st' ->
  exists (a e b : Z) (s : sex_t) (d sm c k pa : bool) (l : R),
    st' = mkSession (Some (PyInt a)) (Some (PyStr (sex_label s)))
                    (Some (PyBool d)) (Some (PyBool sm))
                    (Some (PyInt e)) (Some (PyFloat l)) (Some (PyInt b))
                    (Some (PyBool c)) (Some (PyBool k)) (Some (PyBool pa))
    /\ in_widget_range (mkProfile (IZR a) s d sm (IZR e) l (IZR b) c k pa)
    /\ (Z.abs a <= 1000 /\ Z.abs e <= 1000 /\ Z.abs b <= 1000)%Z.
Proof.
  intros (Hslider & Hradio & Hfloat & Hint) Hside.
  unfold sidebar in Hside.
  repeat run_step Hside.
  injection Hside as <-.
  repeat match goal with
         | E : slider ui _ _ _ _ = Ok _ |- _ => apply Hslider in E
         | E : radio ui _ _ _ = Ok _ |- _ => apply Hradio in E
         | E : number_input_float ui _ _ _ _ = Ok _ |- _ => apply Hfloat in E
         | E : number_input_int ui _ _ _ _ = Ok _ |- _ => apply Hint in E
         end.
  match goal with
  | E : In ?s _ |- _ =>
      assert (Hs : exists x, s = sex_label x)
        by (destruct E as [<- | [<- | []]]; [now exists Male | now exists Female])
  end.
  destruct Hs as [x ->].
  do 10 eexists. split; [reflexivity |].
  unfold in_widget_range; simpl.
  repeat match goal with
         | E : (_ <= _ <= _)%Z |- _ =>
             let E1 := fresh in let E2 := fresh in
             pose proof E as [E1 E2]; apply IZR_le in E1, E2;
             revert E
         end.
  intros. repeat split; try lra; lia.
Qed.

Lemma linear_predictor_sidebar_state (a e b : Z) (s : sex_t)
    (d sm c k pa : bool) (l : R) :
  (Z.abs a <= 1000 /\ Z.abs e <= 1000 /\ Z.abs b <= 1000)%Z ->
  linear_predictor
    (mkSession (Some (PyInt a)) (Some (PyStr (sex_label s)))
               (Some (PyBool d)) (Some (PyBool sm))
               (Some (PyInt e)) (Some (PyFloat l)) (Some (PyInt b))
               (Some (PyBool c)) (Some (PyBool k)) (Some (PyBool pa)))
  = Ok (spec_lp (mkProfile (IZR a) s d sm (IZR e) l (IZR b) c k pa)).
Proof.
  intros (Ha & He & Hb).
  rewrite <- linear_predictor_profile.
  unfold linear_predictor, session_of. cbn [age sex diabetes smoker egfr ldl sbp
    cad stroke pad getattr bind p_age p_sex p_diabetes p_smoker p_egfr p_ldl
    p_sbp p_cad p_stroke p_pad].
  rewrite !small_int_converts by assumption.
  reflexivity.
Qed.

Lemma calculate_sidebar_state (a e b : Z) (s : sex_t)
    (d sm c k pa : bool) (l : R) :
  (Z.abs a <= 1000 /\ Z.abs e <= 1000 /\ Z.abs b <= 1000)%Z ->
  calculate_smart2_risk
    (mkSession (Some (PyInt a)) (Some (PyStr (sex_label s)))
               (Some (PyBool d)) (Some (PyBool sm))
               (Some (PyInt e)) (Some (PyFloat l)) (Some (PyInt b))
               (Some (PyBool c)) (Some (PyBool k)) (Some (PyBool pa)))
  = calculate_smart2_risk
      (session_of (mkProfile (IZR a) s d sm (IZR e) l (IZR b) c k pa)).
Proof.
  intros H. rewrite !calculate_cases.
  now rewrite linear_predictor_sidebar_state, linear_predictor_profile.
Qed.

Lemma tab2_matches_tier (r : R) :
  main_tab2 (Some r)
  = match tier_of r with
    | VeryHigh => VeryHighRiskManagement
    | High => HighRiskManagement
    | Moderate => ModerateRiskManagement
    end.
Proof.
  unfold main_tab2, tier_of.
  destruct (Rle_dec 30 r); [reflexivity |].
  destruct (Rle_dec 20 r); reflexivity.
Qed.

Lemma main_page (ui : streamlit) (st : session_state) (pg : page) :
  widgets_in_bounds ui ->
  main ui st = Ok pg ->
  exists (p : PatientProfile) (r : R) (fs : list factor),
    in_widget_range p
    /\ calculate_smart2_risk (session_of p) = Ok (Some r)
    /\ 1 <= r <= 98.5
    /\ pg = mkPage (RiskEstimate r (tier_of r)) (Some fs) (main_tab2 (Some r)).
Proof.
  intros Hui Hmain. unfold main in Hmain.
  destruct (sidebar ui st) as [st' |] eqn:Hside; cbn [bind] in Hmain;
    [| discriminate].
  destruct (sidebar_state ui st st' Hui Hside)
    as (a & e & b & s & d & sm & c & k & pa & l & -> & Hrange & Hsmall).
  unfold main_tab1 in Hmain.
  rewrite (calculate_sidebar_state _ _ _ _ _ _ _ _ _ _ Hsmall) in Hmain.
  destruct (calculate_widget_range _ Hrange) as (r & Hcalc & Hr).
  rewrite Hcalc in Hmain. cbn [bind] in Hmain.
  match type of Hmain with
  | context [risk_factors ?s] =>
      destruct (risk_factors s) as [fs |]; cbn [bind] in Hmain; [| discriminate]
  end.
  injection Hmain as <-.
  eexists _, r, fs.
  split; [exact Hrange |]. split; [exact Hcalc |]. split; [exact Hr |].
  reflexivity.
Qed.

Lemma calculate_initial_state :
  calculate_smart2_risk initial_state = Ok (Some 1).
Proof.
  unfold initial_state.
  change "Male"%string with (sex_label Male).
  rewrite calculate_sidebar_state by lia.
  assert (Hlp : spec_lp (mkProfile (IZR 65) Male false false (IZR 90) 3.5
                                   (IZR 140) false false false) = -7.4666).
  { unfold spec_lp, term_intercept, term_age, term_female, term_diabetes,
      term_smoker, term_egfr_lt_30, term_egfr_30_60, term_polyvascular,
      term_ldl, term_sbp; simpl.
    destruct (Rlt_dec 90 30), (Rle_dec 30 90), (Rlt_dec 90 60); lra. }
  rewrite calculate_profile_in_range by (unfold lp_in_range; rewrite Hlp; lra).
  rewrite Hlp. do 2 f_equal. apply clamp_rounded_low.
  assert (Hle : -7.4666 <= -6.86) by lra.
  apply literal_raw_le in Hle. pose proof literal_raw_low. lra.
Qed.

Lemma sidebar_raises_on_missing_key (ui : streamlit) (st : session_state) :
  key_absent st -> exists e, sidebar ui st = Raise e.
Proof.
  intros Habs. unfold sidebar.
  destruct (sidebar ui st) as [st' | e] eqn:Hside; [exfalso | now exists e].
  unfold sidebar, key_absent in *.
  repeat run_step Hside.
  intuition discriminate.
Qed.

(** ** The page *)

(** X1: when the widgets return values within their bounds and [main] runs
    to its end, the first tab shows a risk estimate between 1.0 and 98.5
    with its tier and the list of risk factors; neither the warning
    "Complete all fields" nor the upper clamp 99.0 is reachable. *)
Theorem X1_main_always_shows_estimate (ui : streamlit) (st : session_state)
    (pg : page) :
  widgets_in_bounds ui ->
  main ui st = Ok pg ->
  exists r, shown_tab1 pg = RiskEstimate r (tier_of r)
            /\ 1 <= r <= 98.5
            /\ shown_factors pg <> None.
Proof.
  intros Hui Hmain.
  destruct (main_page ui st pg Hui Hmain) as (p & r & fs & _ & _ & Hr & ->).
  exists r. cbn. split; [reflexivity |]. split; [exact Hr | discriminate].
Qed.

(** X2: whatever the widgets return, the two tabs of a page agree: the
    guidance of the second tab is the one of the tier shown in the first,
    and the prompt to complete the assessment goes with the warning. *)
Theorem X2_tabs_agree (ui : streamlit) (st : session_state) (pg : page) :
  main ui st = Ok pg ->
  match shown_tab1 pg with
  | RiskEstimate _ VeryHigh => shown_tab2 pg = VeryHighRiskManagement
  | RiskEstimate _ High => shown_tab2 pg = HighRiskManagement
  | RiskEstimate _ Moderate => shown_tab2 pg = ModerateRiskManagement
  | CompleteAllFields => shown_tab2 pg = CompleteRiskAssessment
  end.
Proof.
  intros Hmain. unfold main, main_tab1 in Hmain.
  destruct (sidebar ui st) as [st' |]; cbn [bind] in Hmain; [| discriminate].
  rewrite calculate_cases in Hmain.
  destruct (linear_predictor st') as [lp |]; cbn [bind] in Hmain.
  - destruct (risk_percent lp) as [rp |]; cbn [bind] in Hmain.
    + destruct (risk_factors st'); cbn [bind] in Hmain; [| discriminate].
      injection Hmain as <-. cbn [shown_tab1 shown_tab2].
      unfold tier_of, main_tab2.
      destruct (Rle_dec 30 (clamp_rounded rp)); [reflexivity |].
      destruct (Rle_dec 20 (clamp_rounded rp)); reflexivity.
    + injection Hmain as <-. reflexivity.
  - injection Hmain as <-. reflexivity.
Qed.

(** X3: when one of the ten keys is absent, [main] does not produce a
    page: reading the key for its widget raises (unless an earlier widget
    raised already).  The warning of the first tab is not how a missing
    key shows. *)
Theorem X3_main_raises_on_missing_key (ui : streamlit) (st : session_state) :
  key_absent st -> exists e, main ui st = Raise e.
Proof.
  intros Habs.
  destruct (sidebar_raises_on_missing_key ui st Habs) as [e He].
  exists e. unfold main. now rewrite He.
Qed.

(** ** Start-up *)

(** X4: a session without the key [age] is filled with the defaults, and
    the calculation on it gives 1.0, shown as moderate risk. *)
Theorem X4_first_run (st : session_state) :
  age st = None ->
  initialise st = initial_state
  /\ calculate_smart2_risk (initialise st) = Ok (Some 1)
  /\ main_tab1 (initialise st) = Ok (RiskEstimate 1 Moderate).
Proof.
  intros Hage. unfold initialise. rewrite Hage.
  split; [reflexivity |]. split; [apply calculate_initial_state |].
  unfold main_tab1. rewrite calculate_initial_state. cbn [bind].
  unfold tier_of.
  destruct (Rle_dec 30 1); [lra |]. destruct (Rle_dec 20 1); [lra |].
  reflexivity.
Qed.

(** X5: the start-up code looks at the key [age] only: a session that has
    [age] but lacks another key is left as it is, and the calculation on
    it returns None. *)
Theorem X5_initialise_keeps_gaps (st : session_state) :
  age st <> None -> key_absent st ->
  initialise st = st /\ calculate_smart2_risk (initialise st) = Ok None.
Proof.
  intros Hage Habs.
  assert (Hinit : initialise st = st).
  { unfold initialise. destruct (age st); [reflexivity | congruence]. }
  rewrite Hinit. split; [reflexivity |].
  apply calculate_none_iff. left. now left.
Qed.

(** ** How the calculation reads its fields *)

(** X6: the sex counts as female only when it is the str "Female", and
    diabetes and smoking count whenever their value is truthy: any other
    sex scores as "Male", any truthy value as [True]. *)
Theorem X6_sex_and_flags_by_test (a e l b c k pa : option pyval)
    (v_sex v_diabetes v_smoker : pyval) :
  calculate_smart2_risk
    (mkSession a (Some v_sex) (Some v_diabetes) (Some v_smoker) e l b c k pa)
  = calculate_smart2_risk
      (mkSession a
         (Some (PyStr (if py_eq_str v_sex "Female" then "Female" else "Male")))
         (Some (PyBool (truthy v_diabetes))) (Some (PyBool (truthy v_smoker)))
         e l b c k pa).
Proof.
  rewrite !calculate_cases. unfold linear_predictor, coefficients.
  cbn [age sex diabetes smoker egfr ldl sbp cad stroke pad].
  assert (Hs : py_eq_str
                 (PyStr (if py_eq_str v_sex "Female" then "Female" else "Male"))
                 "Female" = py_eq_str v_sex "Female").
  { destruct (py_eq_str v_sex "Female"); reflexivity. }
  cbn [getattr bind truthy]. rewrite Hs. reflexivity.
Qed.

(** X7: the vascular flags of a well-formed profile matter only through
    "two or more of them": profiles that differ in these flags alone and
    agree on that test get the same result.  In particular a single
    territory changes nothing. *)
Theorem X7_vascular_flags_by_count (a e l b : R) (s : sex_t) (d sm : bool)
    (c k pa c' k' pa' : bool) :
  (2 <=? Nat.b2n c + Nat.b2n k + Nat.b2n pa)%nat
  = (2 <=? Nat.b2n c' + Nat.b2n k' + Nat.b2n pa')%nat ->
  calculate_smart2_risk (session_of (mkProfile a s d sm e l b c k pa))
  = calculate_smart2_risk (session_of (mkProfile a s d sm e l b c' k' pa')).
Proof.
  intros Hcount. rewrite !calculate_profile.
  assert (Hlp : spec_lp (mkProfile a s d sm e l b c k pa)
                = spec_lp (mkProfile a s d sm e l b c' k' pa')).
  { unfold spec_lp, term_polyvascular, vascular_territory_count.
    cbn [p_cad p_stroke p_pad]. rewrite Hcount. reflexivity. }
  now rewrite Hlp.
Qed.

(** X8: the eGFR of a well-formed profile matters only through its band
    (below 30, from 30 to below 60, from 60): profiles that differ in eGFR
    alone within one band get the same result. *)
Theorem X8_egfr_by_band (a e e' l b : R) (s : sex_t) (d sm c k pa : bool) :
  (e < 30 <-> e' < 30) -> (e < 60 <-> e' < 60) ->
  calculate_smart2_risk (session_of (mkProfile a s d sm e l b c k pa))
  = calculate_smart2_risk (session_of (mkProfile a s d sm e' l b c k pa)).
Proof.
  intros H30 H60. rewrite !calculate_profile.
  assert (Hlp : spec_lp (mkProfile a s d sm e l b c k pa)
                = spec_lp (mkProfile a s d sm e' l b c k pa)).
  { unfold spec_lp, term_egfr_lt_30, term_egfr_30_60. cbn [p_egfr].
    assert (H1 : (if Rlt_dec e 30 then 0.9235 else 0)
                 = (if Rlt_dec e' 30 then 0.9235 else 0))
      by (destruct (Rlt_dec e 30), (Rlt_dec e' 30); tauto || reflexivity).
    assert (H2 : (if Rle_dec 30 e
                  then (if Rlt_dec e 60 then 0.5539 else 0) else 0)
                 = (if Rle_dec 30 e'
                    then (if Rlt_dec e' 60 then 0.5539 else 0) else 0)).
    { destruct (Rle_dec 30 e), (Rle_dec 30 e'), (Rlt_dec e 60), (Rlt_dec e' 60);
        try reflexivity; exfalso; lra || tauto. }
    rewrite H1, H2. reflexivity. }
  now rewrite Hlp.
Qed.

(** X9: a well-formed profile whose linear predictor is at most -6.86 gets
    the lower clamp 1.0. *)
Theorem X9_lower_clamp_region (p : PatientProfile) :
  spec_lp p <= -6.86 ->
  calculate_smart2_risk (session_of p) = Ok (Some 1).
Proof.
  intros Hlp.
  rewrite calculate_profile_in_range by (unfold lp_in_range; lra).
  do 2 f_equal. apply clamp_rounded_low.
  apply literal_raw_le in Hlp. pose proof literal_raw_low. lra.
Qed.

(** X10: a well-formed profile whose linear predictor lies between -0.78
    and 709 gets the upper clamp 99.0. *)
Theorem X10_upper_clamp_region (p : PatientProfile) :
  -0.78 <= spec_lp p <= 709 ->
  calculate_smart2_risk (session_of p) = Ok (Some 99).
Proof.
  intros [Hlo Hhi].
  rewrite calculate_profile_in_range by exact Hhi.
  do 2 f_equal. apply clamp_rounded_high.
  apply literal_raw_le in Hlo. pose proof literal_raw_high. lra.
Qed.

(** X11: a well-formed profile whose linear predictor is 1024 or more gets
    None: the inner power overflows. *)
Theorem X11_overflow_region (p : PatientProfile) :
  1024 <= spec_lp p ->
  calculate_smart2_risk (session_of p) = Ok None.
Proof. apply calculate_profile_overflow. Qed.

(** X12: within the ranges of the widgets every well-formed profile gets
    a risk, between 1.0 and 98.5. *)
Theorem X12_widget_range_risk (p : PatientProfile) :
  in_widget_range p ->
  exists r, calculate_smart2_risk (session_of p) = Ok (Some r)
            /\ 1 <= r <= 98.5.
Proof. apply calculate_widget_range. Qed.

(** X13: ints in the four numeric fields give the result of the floats of
    the same value, as long as they are within the float range. *)
Theorem X13_ints_as_floats (za ze zl zb : Z) (s d sm c k pa : option pyval) :
  (Z.abs za < float_overflow)%Z -> (Z.abs ze < float_overflow)%Z ->
  (Z.abs zl < float_overflow)%Z -> (Z.abs zb < float_overflow)%Z ->
  calculate_smart2_risk
    (mkSession (Some (PyInt za)) s d sm (Some (PyInt ze)) (Some (PyInt zl))
               (Some (PyInt zb)) c k pa)
  = calculate_smart2_risk
      (mkSession (Some (PyFloat (IZR za))) s d sm (Some (PyFloat (IZR ze)))
                 (Some (PyFloat (IZR zl))) (Some (PyFloat (IZR zb))) c k pa).
Proof.
  intros Ha He Hl Hb. rewrite !calculate_cases. unfold linear_predictor.
  cbn [age sex diabetes smoker egfr ldl sbp cad stroke pad getattr bind].
  rewrite !py_float_int by assumption.
  reflexivity.
Qed.

(** X14: when the raw percentage of a well-formed profile lies within
    [1, 99] the returned risk differs from it by at most 0.05. *)
Theorem X14_rounding_error (p : PatientProfile) (r : R) :
  calculate_smart2_risk (session_of p) = Ok (Some r) ->
  1 <= literal_risk_percent_raw (spec_lp p) <= 99 ->
  Rabs (r - literal_risk_percent_raw (spec_lp p)) <= 0.05.
Proof.
  intros Hcalc Hraw. rewrite calculate_profile in Hcalc.
  destruct (risk_percent_cases (spec_lp p)) as [[_ H] | [_ H]];
    rewrite H in Hcalc; [| discriminate].
  injection Hcalc as <-.
  set (x := literal_risk_percent_raw (spec_lp p)) in *.
  pose proof (round_half_even_near (x * 10)) as Hn.
  assert (H1 : 1 <= py_round1 x).
  { rewrite <- py_round1_1. apply py_round1_le. lra. }
  assert (H99 : py_round1 x <= 99).
  { rewrite <- py_round1_99. apply py_round1_le. lra. }
  assert (Hc : clamp_rounded x = py_round1 x).
  { unfold clamp_rounded, py_max, py_min.
    destruct (Rlt_dec (py_round1 x) 99.0); destruct (Rlt_dec 1.0 _); lra. }
  rewrite Hc. unfold py_round1. apply Rabs_le. lra.
Qed.

(** X15: whenever line 45 yields a value it lies between 0 and 100, the
    ends included (in binary64 the subtraction from 1 can reach them). *)
Theorem X15_raw_is_a_percentage (lp x : R) :
  risk_percent lp = Ok x -> 0 <= x <= 100.
Proof.
  intros H.
  destruct (risk_percent_cases lp) as [[_ H'] | [_ H']]; rewrite H' in H;
    [| discriminate].
  injection H as <-. pose proof (literal_raw_bounds lp). lra.
Qed.

(** ** The list of risk factors *)

Lemma risk_factors_profile (p : PatientProfile) :
  risk_factors (session_of p)
  = Ok ([FactorAge (PyFloat (p_age p)); FactorSex (PyStr (sex_label (p_sex p)));
         FactorLDL (PyFloat (p_ldl p)); FactorSBP (PyFloat (p_sbp p))]
        ++ (if p_diabetes p then [FactorDiabetes] else [])
        ++ (if p_smoker p then [FactorSmoker] else [])
        ++ (if Rlt_dec (p_egfr p) 60
            then [FactorEgfrCKD (PyFloat (p_egfr p))] else [])
        ++ (if (1 <=? vascular_territory_count p)%nat
            then [FactorVascular
                    (NInt (0 + bool_to_int (p_cad p) + bool_to_int (p_stroke p)
                           + bool_to_int (p_pad p)))]
            else [])).
Proof.
  destruct p as [a s d sm e l b c k pa].
  unfold risk_factors, session_of, vascular_territory_count, number_gt_int.
  cbn [age sex diabetes smoker egfr ldl sbp cad stroke pad getattr bind
       p_age p_sex p_diabetes p_smoker p_egfr p_ldl p_sbp p_cad p_stroke p_pad
       py_lt_int truthy py_sum py_sum_from py_add number_of].
  destruct d, sm, (Rlt_dec e (IZR 60)), c, k, pa;
    cbn -[Rlt_dec];
    match goal with
    | |- context [Rlt_dec (IZR 0) ?x] => destruct (Rlt_dec (IZR 0) x)
    end; (reflexivity || (exfalso; lra)).
Qed.

(** X16: the expander of a well-formed profile lists diabetes, smoking and
    the CKD entry exactly when the corresponding terms of the score are
    non-zero, but the vascular entry from one territory on, whereas the
    polyvascular term needs two; it has between four and eight entries. *)
Theorem X16_summary_against_score (p : PatientProfile) :
  exists fs,
    risk_factors (session_of p) = Ok fs
    /\ (In FactorDiabetes fs <-> term_diabetes p <> 0)
    /\ (In FactorSmoker fs <-> term_smoker p <> 0)
    /\ (In (FactorEgfrCKD (PyFloat (p_egfr p))) fs
        <-> term_egfr_lt_30 p + term_egfr_30_60 p <> 0)
    /\ ((exists n, In (FactorVascular n) fs)
        <-> (1 <= vascular_territory_count p)%nat)
    /\ (term_polyvascular p <> 0 <-> (2 <= vascular_territory_count p)%nat)
    /\ (4 <= length fs <= 8)%nat.
Proof.
  eexists. split; [apply risk_factors_profile |].
  unfold term_diabetes, term_smoker, term_egfr_lt_30, term_egfr_30_60,
    term_polyvascular.
  split; [| split; [| split; [| split; [| split]]]].
  - rewrite !in_app_iff.
    destruct (p_diabetes p), (p_smoker p), (Rlt_dec (p_egfr p) 60),
      (1 <=? vascular_territory_count p)%nat; cbn [In];
      (split; [intros _; lra | intros _; tauto])
      || (split; [intros H; exfalso; intuition discriminate | intros H; lra]).
  - rewrite !in_app_iff.
    destruct (p_diabetes p), (p_smoker p), (Rlt_dec (p_egfr p) 60),
      (1 <=? vascular_territory_count p)%nat; cbn [In];
      (split; [intros _; lra | intros _; tauto])
      || (split; [intros H; exfalso; intuition discriminate | intros H; lra]).
  - rewrite !in_app_iff.
    destruct (p_diabetes p), (p_smoker p), (Rlt_dec (p_egfr p) 60),
      (1 <=? vascular_territory_count p)%nat; cbn [In];
      destruct (Rlt_dec (p_egfr p) 30); destruct (Rle_dec 30 (p_egfr p));
      try lra;
      (split; [intros _; lra | intros _; tauto])
      || (split; [intros H; exfalso; intuition discriminate | intros H; lra]).
  - destruct (1 <=? vascular_territory_count p)%nat eqn:Hone;
      [apply Nat.leb_le in Hone | apply Nat.leb_gt in Hone].
    + split; [intros _; exact Hone |]. intros _. eexists.
      rewrite !in_app_iff. do 4 right. left. reflexivity.
    + split; [| lia]. intros [n H]. exfalso.
      rewrite !in_app_iff in H.
      destruct (p_diabetes p), (p_smoker p), (Rlt_dec (p_egfr p) 60);
        cbn [In] in H; intuition discriminate.
  - destruct (2 <=? vascular_territory_count p)%nat eqn:Htwo;
      [apply Nat.leb_le in Htwo | apply Nat.leb_gt in Htwo].
    + split; [intros _; exact Htwo | intros _; lra].
    + split; [intros H; exfalso; lra | lia].
  - rewrite !length_app.
    destruct (p_diabetes p), (p_smoker p), (Rlt_dec (p_egfr p) 60),
      (1 <=? vascular_territory_count p)%nat; cbn [length]; lia.
Qed.

End Calculation.

(** * Closed instances *)


(** C3, a well-formed profile without a risk: at age 100000 the function
    returns None. *)
Lemma C3_age_100000_has_no_risk :
  ~ exists r : R,
      calculate_smart2_risk no_numeral_str (session_of age_100000)
      = Ok (Some r) /\ 1 <= r <= 99.
Proof.
  intros (r & Hr & _). rewrite calculate_age_100000 in Hr. discriminate.
Qed.

(** C6, a state with every key present and every numeric field a float,
    on which the function still returns None. *)
Lemma C6_sbp_1000000_is_none :
  calculate_smart2_risk no_numeral_str (session_of sbp_1000000) = Ok None
  /\ ~ input_rejected no_numeral_str (session_of sbp_1000000).
Proof.
  split; [apply calculate_sbp_1000000 |].
  pose proof (linear_predictor_outcome no_numeral_str (session_of sbp_1000000)) as H.
  now rewrite linear_predictor_profile in H.
Qed.

(** C7 applied to the reference patient and the same patient ten years
    older with diabetes. *)
Lemma C7_monotone_witness :
  riskier scenario_A older_diabetic
  /\ calculate_smart2_risk no_numeral_str (session_of older_diabetic)
     = Ok (Some (clamp_rounded (literal_risk_percent_raw (spec_lp older_diabetic))))
  /\ exists r,
       calculate_smart2_risk no_numeral_str (session_of scenario_A)
       = Ok (Some r)
       /\ r <= clamp_rounded (literal_risk_percent_raw (spec_lp older_diabetic)).
Proof.
  assert (Hle : riskier scenario_A older_diabetic).
  { unfold riskier, bool_le, scenario_A, older_diabetic; simpl.
    repeat split; try lra; intros; reflexivity. }
  assert (Hcalc :
    calculate_smart2_risk no_numeral_str (session_of older_diabetic)
    = Ok (Some (clamp_rounded (literal_risk_percent_raw (spec_lp older_diabetic))))).
  { apply calculate_profile_in_range, widget_range_lp.
    unfold in_widget_range, older_diabetic; simpl. lra. }
  split; [exact Hle |].
  split; [exact Hcalc |].
  exact (C7_monotone no_numeral_str scenario_A older_diabetic _ Hle Hcalc).
Defined.

Lemma spec_lp_age_200 :
  spec_lp (mkProfile 200 Male false false 90 2.5 120 false false false) = 0.6963.
Proof.
  unfold spec_lp, term_intercept, term_age, term_female, term_diabetes,
    term_smoker, term_egfr_lt_30, term_egfr_30_60, term_polyvascular,
    term_ldl, term_sbp; simpl.
  destruct (Rlt_dec 90 30), (Rle_dec 30 90), (Rlt_dec 90 60); lra.
Qed.

Lemma calculate_age_200 :
  calculate_smart2_risk no_numeral_str
    (session_of (mkProfile 200 Male false false 90 2.5 120 false false false))
  = Ok (Some 99).
Proof.
  rewrite calculate_profile_in_range
    by (unfold lp_in_range; rewrite spec_lp_age_200; lra).
  rewrite spec_lp_age_200. do 2 f_equal. apply clamp_rounded_high.
  assert (Hle : -0.78 <= 0.6963) by lra.
  apply literal_raw_le in Hle. pose proof literal_raw_high. lra.
Qed.

(** C7, the claim as stated fails: two well-formed profiles differ in the
    age alone, the older one has no risk at all although the younger has
    99.0, so raising the age did not keep the risk from falling away. *)
Lemma C7_older_profile_has_no_risk :
  riskier (mkProfile 200 Male false false 90 2.5 120 false false false)
          age_100000
  /\ calculate_smart2_risk no_numeral_str
       (session_of (mkProfile 200 Male false false 90 2.5 120 false false false))
     = Ok (Some 99)
  /\ ~ exists r' : R,
        calculate_smart2_risk no_numeral_str (session_of age_100000)
        = Ok (Some r') /\ 99 <= r'.
Proof.
  split; [| split].
  - unfold riskier, bool_le, age_100000; simpl.
    repeat split; try lra; intros H; exact H.
  - exact calculate_age_200.
  - intros (r' & Hr & _). rewrite calculate_age_100000 in Hr. discriminate.
Qed.

(** C9, the claim as stated fails: the extreme male profile does not
    return the upper clamp 99.0. *)
Lemma C9_extreme_high_is_not_99 :
  calculate_smart2_risk no_numeral_str (session_of (extreme_high Male))
  <> Ok (Some 99).
Proof.
  rewrite calculate_extreme_high. intros H. injection H as H. lra.
Qed.

(** ** Instances for the further properties *)

Lemma untouched_in_bounds : widgets_in_bounds untouched.
Proof.
  unfold widgets_in_bounds, untouched; cbn.
  repeat split.
  - destruct v; try discriminate.
    destruct ((lo <=? z0) && (z0 <=? hi))%Z eqn:Hb; [| discriminate].
    apply andb_prop in Hb. injection H as <-. lia.
  - destruct v; try discriminate.
    destruct ((lo <=? z0) && (z0 <=? hi))%Z eqn:Hb; [| discriminate].
    apply andb_prop in Hb. injection H as <-. lia.
  - intros l opts i s H.
    destruct (nth_error opts i) eqn:Hn; [| discriminate].
    injection H as <-. eapply nth_error_In, Hn.
  - destruct v; try discriminate.
    destruct (Rle_dec lo x0); [| discriminate].
    destruct (Rle_dec x0 hi); [| discriminate].
    injection H as <-. assumption.
  - destruct v; try discriminate.
    destruct (Rle_dec lo x0); [| discriminate].
    destruct (Rle_dec x0 hi); [| discriminate].
    injection H as <-. assumption.
  - destruct v; try discriminate.
    destruct ((lo <=? z0) && (z0 <=? hi))%Z eqn:Hb; [| discriminate].
    apply andb_prop in Hb. injection H as <-. lia.
  - destruct v; try discriminate.
    destruct ((lo <=? z0) && (z0 <=? hi))%Z eqn:Hb; [| discriminate].
    apply andb_prop in Hb. injection H as <-. lia.
Qed.

Lemma sidebar_untouched_initial :
  sidebar untouched initial_state = Ok initial_state.
Proof.
  unfold sidebar, untouched, initial_state.
  cbn -[Rle_dec].
  destruct (Rle_dec 1.0 3.5); [| lra].
  destruct (Rle_dec 3.5 10.0); [| lra].
  reflexivity.
Qed.

Lemma main_untouched_initial :
  main no_numeral_str untouched initial_state
  = Ok (mkPage (RiskEstimate 1 Moderate)
               (Some [FactorAge (PyInt 65); FactorSex (PyStr "Male");
                      FactorLDL (PyFloat 3.5); FactorSBP (PyInt 140)])
               ModerateRiskManagement).
Proof.
  unfold main. rewrite sidebar_untouched_initial. cbn [bind].
  unfold main_tab1. rewrite calculate_initial_state. cbn [bind].
  assert (Hf : risk_factors initial_state
               = Ok [FactorAge (PyInt 65); FactorSex (PyStr "Male");
                     FactorLDL (PyFloat 3.5); FactorSBP (PyInt 140)]).
  { unfold risk_factors, initial_state, number_gt_int. cbn -[Rlt_dec].
    destruct (Rlt_dec 0 0); [lra | reflexivity]. }
  rewrite Hf. cbn [bind].
  unfold tier_of, main_tab2.
  destruct (Rle_dec 30 1); [lra |]. destruct (Rle_dec 20 1); [lra |].
  reflexivity.
Qed.

(** X1 on the start-up state with widgets left untouched. *)
Lemma X1_witness :
  widgets_in_bounds untouched
  /\ exists r,
       RiskEstimate 1 Moderate = RiskEstimate r (tier_of r)
       /\ 1 <= r <= 98.5
       /\ Some [FactorAge (PyInt 65); FactorSex (PyStr "Male");
                FactorLDL (PyFloat 3.5); FactorSBP (PyInt 140)] <> None.
Proof.
  split; [exact untouched_in_bounds |].
  exact (X1_main_always_shows_estimate no_numeral_str untouched initial_state _
           untouched_in_bounds main_untouched_initial).
Defined.

(** X2 on the same run. *)
Lemma X2_witness :
  main no_numeral_str untouched initial_state
  = Ok (mkPage (RiskEstimate 1 Moderate)
               (Some [FactorAge (PyInt 65); FactorSex (PyStr "Male");
                      FactorLDL (PyFloat 3.5); FactorSBP (PyInt 140)])
               ModerateRiskManagement)
  /\ ModerateRiskManagement = ModerateRiskManagement.
Proof.
  split; [exact main_untouched_initial |].
  exact (X2_tabs_agree no_numeral_str untouched initial_state _
           main_untouched_initial).
Defined.

(** X3 on a state without the key [sex]. *)
Lemma X3_witness :
  key_absent sex_missing
  /\ exists e, main no_numeral_str untouched sex_missing = Raise e.
Proof.
  assert (Habs : key_absent sex_missing).
  { unfold key_absent, sex_missing; simpl. right. left. reflexivity. }
  split; [exact Habs |].
  exact (X3_main_raises_on_missing_key no_numeral_str untouched sex_missing Habs).
Defined.

(** X4 on a state without the key [age]. *)
Lemma X4_witness :
  age age_missing = None
  /\ initialise age_missing = initial_state
  /\ calculate_smart2_risk no_numeral_str (initialise age_missing) = Ok (Some 1)
  /\ main_tab1 no_numeral_str (initialise age_missing)
     = Ok (RiskEstimate 1 Moderate).
Proof.
  split; [reflexivity |].
  exact (X4_first_run no_numeral_str age_missing eq_refl).
Defined.

(** X5 on a state with [age] but without [sex]. *)
Lemma X5_witness :
  age sex_missing <> None /\ key_absent sex_missing
  /\ initialise sex_missing = sex_missing
  /\ calculate_smart2_risk no_numeral_str (initialise sex_missing) = Ok None.
Proof.
  assert (Hage : age sex_missing <> None) by discriminate.
  assert (Habs : key_absent sex_missing).
  { unfold key_absent, sex_missing; simpl. right. left. reflexivity. }
  split; [exact Hage |]. split; [exact Habs |].
  exact (X5_initialise_keeps_gaps no_numeral_str sex_missing Hage Habs).
Defined.

(** X7: the reference patient with and without coronary artery disease. *)
Lemma X7_witness :
  (2 <=? Nat.b2n true + Nat.b2n false + Nat.b2n false)%nat
  = (2 <=? Nat.b2n false + Nat.b2n false + Nat.b2n false)%nat
  /\ calculate_smart2_risk no_numeral_str
    (session_of (mkProfile 60 Male false false 90 2.5 120 true false false))
  = calculate_smart2_risk no_numeral_str
      (session_of (mkProfile 60 Male false false 90 2.5 120 false false false)).
Proof.
  split; [reflexivity |].
  exact (X7_vascular_flags_by_count no_numeral_str 60 90 2.5 120 Male false false
           true false false false false false eq_refl).
Defined.

(** X8: the reference patient at eGFR 70 and 100. *)
Lemma X8_witness :
  (70 < 30 <-> 100 < 30) /\ (70 < 60 <-> 100 < 60)
  /\ calculate_smart2_risk no_numeral_str
    (session_of (mkProfile 60 Male false false 70 2.5 120 false false false))
  = calculate_smart2_risk no_numeral_str
      (session_of (mkProfile 60 Male false false 100 2.5 120 false false false)).
Proof.
  assert (H30 : 70 < 30 <-> 100 < 30) by (split; intros; lra).
  assert (H60 : 70 < 60 <-> 100 < 60) by (split; intros; lra).
  split; [exact H30 |]. split; [exact H60 |].
  exact (X8_egfr_by_band no_numeral_str 60 70 100 2.5 120 Male false false
           false false false H30 H60).
Defined.

(** X9 on the reference patient. *)
Lemma X9_witness :
  spec_lp scenario_A <= -6.86
  /\ calculate_smart2_risk no_numeral_str (session_of scenario_A) = Ok (Some 1).
Proof.
  assert (Hlp : spec_lp scenario_A <= -6.86)
    by (rewrite spec_lp_scenario_A; lra).
  split; [exact Hlp |].
  exact (X9_lower_clamp_region no_numeral_str scenario_A Hlp).
Defined.

(** X10 on the reference patient at age 200. *)
Lemma X10_witness :
  -0.78 <= spec_lp (mkProfile 200 Male false false 90 2.5 120 false false false)
   <= 709
  /\ calculate_smart2_risk no_numeral_str
       (session_of (mkProfile 200 Male false false 90 2.5 120 false false false))
     = Ok (Some 99).
Proof.
  assert (Hlp : -0.78 <= spec_lp (mkProfile 200 Male false false 90 2.5 120
                                             false false false) <= 709)
    by (rewrite spec_lp_age_200; lra).
  split; [exact Hlp |].
  exact (X10_upper_clamp_region no_numeral_str _ Hlp).
Defined.

Lemma spec_lp_age_100000 : 1024 <= spec_lp age_100000.
Proof.
  unfold spec_lp, term_intercept, term_age, term_female, term_diabetes,
    term_smoker, term_egfr_lt_30, term_egfr_30_60, term_polyvascular,
    term_ldl, term_sbp, age_100000; simpl.
  destruct (Rlt_dec 90 30), (Rle_dec 30 90), (Rlt_dec 90 60); lra.
Qed.

(** X11 at age 100000. *)
Lemma X11_witness :
  1024 <= spec_lp age_100000
  /\ calculate_smart2_risk no_numeral_str (session_of age_100000) = Ok None.
Proof.
  split; [exact spec_lp_age_100000 |].
  exact (X11_overflow_region no_numeral_str age_100000 spec_lp_age_100000).
Defined.

Lemma scenario_A_in_widget_range : in_widget_range scenario_A.
Proof. unfold in_widget_range, scenario_A; simpl. lra. Qed.

(** X12 on the reference patient. *)
Lemma X12_witness :
  in_widget_range scenario_A
  /\ exists r,
       calculate_smart2_risk no_numeral_str (session_of scenario_A) = Ok (Some r)
       /\ 1 <= r <= 98.5.
Proof.
  split; [exact scenario_A_in_widget_range |].
  exact (X12_widget_range_risk no_numeral_str scenario_A
           scenario_A_in_widget_range).
Defined.

Lemma small_below_overflow (z : Z) :
  (Z.abs z <= 1000)%Z -> (Z.abs z < float_overflow)%Z.
Proof.
  intros Hz.
  assert (Hbig : (1000 < float_overflow)%Z) by (unfold Z.lt; vm_compute; reflexivity).
  generalize dependent float_overflow. intros. lia.
Qed.

(** X13 on the start-up values with an integer LDL. *)
Lemma X13_witness :
  (Z.abs 65 < float_overflow /\ Z.abs 90 < float_overflow
   /\ Z.abs 3 < float_overflow /\ Z.abs 140 < float_overflow)%Z
  /\ calculate_smart2_risk no_numeral_str
    (mkSession (Some (PyInt 65)) (Some (PyStr "Male")) (Some (PyBool false))
               (Some (PyBool false)) (Some (PyInt 90)) (Some (PyInt 3))
               (Some (PyInt 140)) (Some (PyBool false)) (Some (PyBool false))
               (Some (PyBool false)))
  = calculate_smart2_risk no_numeral_str
      (mkSession (Some (PyFloat (IZR 65))) (Some (PyStr "Male"))
                 (Some (PyBool false)) (Some (PyBool false))
                 (Some (PyFloat (IZR 90))) (Some (PyFloat (IZR 3)))
                 (Some (PyFloat (IZR 140))) (Some (PyBool false))
                 (Some (PyBool false)) (Some (PyBool false))).
Proof.
  assert (H65 : (Z.abs 65 < float_overflow)%Z)
    by (apply small_below_overflow; simpl; lia).
  assert (H90 : (Z.abs 90 < float_overflow)%Z)
    by (apply small_below_overflow; simpl; lia).
  assert (H3 : (Z.abs 3 < float_overflow)%Z)
    by (apply small_below_overflow; simpl; lia).
  assert (H140 : (Z.abs 140 < float_overflow)%Z)
    by (apply small_below_overflow; simpl; lia).
  split; [repeat split; assumption |].
  exact (X13_ints_as_floats no_numeral_str 65 90 3 140 _ _ _ _ _ _
           H65 H90 H3 H140).
Defined.

Lemma extreme_high_male_raw_in_range :
  1 <= literal_risk_percent_raw (spec_lp (extreme_high Male)) <= 99.
Proof.
  rewrite spec_lp_extreme_high. pose proof extreme_high_male_raw. lra.
Qed.

(** X14 on the extreme male profile. *)
Lemma X14_witness :
  calculate_smart2_risk no_numeral_str (session_of (extreme_high Male))
  = Ok (Some 80.9)
  /\ 1 <= literal_risk_percent_raw (spec_lp (extreme_high Male)) <= 99
  /\ Rabs (80.9 - literal_risk_percent_raw (spec_lp (extreme_high Male))) <= 0.05.
Proof.
  split; [exact (calculate_extreme_high no_numeral_str Male) |].
  split; [exact extreme_high_male_raw_in_range |].
  exact (X14_rounding_error no_numeral_str (extreme_high Male) 80.9
           (calculate_extreme_high no_numeral_str Male)
           extreme_high_male_raw_in_range).
Defined.

Lemma risk_percent_at_2 : risk_percent 2 = Ok (literal_risk_percent_raw 2).
Proof. apply risk_percent_in_range. unfold lp_in_range. lra. Qed.

(** X15 at linear predictor 2. *)
Lemma X15_witness :
  risk_percent 2 = Ok (literal_risk_percent_raw 2)
  /\ 0 <= literal_risk_percent_raw 2 <= 100.
Proof.
  split; [exact risk_percent_at_2 |].
  exact (X15_raw_is_a_percentage 2 _ risk_percent_at_2).
Defined.
